(** * accounts/models.py: accounts, role profiles, addresses and their hooks

    A shallow embedding of [apps/accounts/models.py].  The Django ORM is
    modelled as explicit state passing over a small relational store (one
    finite map per table, keyed by primary key); Python exceptions are values
    of an error type threaded through a state-and-error monad; a method that
    mutates [self] runs over the pair of the object and the store, so that
    attribute assignments survive an exception raised later in the method.
    [DecimalField] values are Python [decimal.Decimal] numbers: a coefficient
    and an exponent, with the default context of 28 significant digits. *)

From stdpp Require Import gmap strings list fin_maps.
From Stdlib Require Import ZArith Lia.

Local Open Scope Z_scope.

(** ** Python's [decimal] module (default context: prec = 28, ROUND_HALF_EVEN)

    Only finite numbers are modelled; the coefficient carries the sign, so
    the negative zero is identified with zero, and the exponent is not
    clamped to [Emin, Emax]. *)
Module decimal.

Record Decimal := mkDecimal { coef : Z; exp : Z }.

#[global] Instance Decimal_eq_dec : EqDecision Decimal.
Proof. solve_decision. Defined.

Definition prec : Z := 28.

Fixpoint ndigits_fuel (fuel : nat) (n : Z) : Z :=
  match fuel with
  | O => 1
  | S fuel' => if n <? 10 then 1 else 1 + ndigits_fuel fuel' (n / 10)
  end.

(** [len(self._int)]: the number of decimal digits of the coefficient. *)
Definition ndigits (n : Z) : Z :=
  ndigits_fuel (S (Z.to_nat (Z.log2 (Z.abs n)))) (Z.abs n).

(** [n / 10^k] rounded to the nearest integer, ties to the even one. *)
Definition round_half_even (n k : Z) : Z :=
  let p := 10 ^ k in
  let q := Z.abs n / p in
  let r := Z.abs n mod p in
  Z.sgn n *
    (if 2 * r <? p then q
     else if p <? 2 * r then q + 1
     else if Z.even q then q else q + 1).

(** [Decimal._fix(context)]: round to at most [p] significant digits. *)
Definition fix_prec (p : Z) (d : Decimal) : Decimal :=
  let n := ndigits (coef d) in
  if n <=? p then d
  else
    let k := n - p in
    let c := round_half_even (coef d) k in
    if p <? ndigits c then mkDecimal (Z.quot c 10) (exp d + k + 1)
    else mkDecimal c (exp d + k).

Definition fix_ : Decimal → Decimal := fix_prec prec.

(** [Decimal(n)] for a Python int. *)
Definition of_int (n : Z) : Decimal := mkDecimal n 0.

(** [Decimal._rescale(exp, ROUND_HALF_EVEN)]. *)
Definition rescale (d : Decimal) (e : Z) : Decimal :=
  if e <=? exp d then mkDecimal (coef d * 10 ^ (exp d - e)) e
  else mkDecimal (round_half_even (coef d) (e - exp d)) e.

(** [Decimal.__add__]: the exact sum at the smaller exponent, then [_fix]. *)
Definition add (a b : Decimal) : Decimal :=
  let e := Z.min (exp a) (exp b) in
  fix_ (mkDecimal (coef a * 10 ^ (exp a - e) + coef b * 10 ^ (exp b - e)) e).

Fixpoint strip_zeros (fuel : nat) (c e ideal : Z) : Z * Z :=
  match fuel with
  | O => (c, e)
  | S fuel' =>
      if (e <? ideal) && (c mod 10 =? 0)
      then strip_zeros fuel' (c / 10) (e + 1) ideal
      else (c, e)
  end.

Inductive signal := DivisionByZero | InvalidOperation.

#[global] Instance signal_eq_dec : EqDecision signal.
Proof. solve_decision. Defined.

(** [Decimal.__truediv__]. *)
Definition truediv (a b : Decimal) : signal + Decimal :=
  if coef b =? 0 then
    inl (if coef a =? 0 then InvalidOperation else DivisionByZero)
  else if coef a =? 0 then inr (fix_ (mkDecimal 0 (exp a - exp b)))
  else
    let sign := Z.sgn (coef a) * Z.sgn (coef b) in
    let x := Z.abs (coef a) in
    let y := Z.abs (coef b) in
    let shift := ndigits y - ndigits x + prec + 1 in
    let e := exp a - exp b - shift in
    let '(q, r) :=
      if 0 <=? shift then (x * 10 ^ shift / y, (x * 10 ^ shift) mod y)
      else (x / (y * 10 ^ (- shift)), x mod (y * 10 ^ (- shift))) in
    let '(c, e') :=
      if r =? 0 then strip_zeros (Z.to_nat (ndigits q)) q e (exp a - exp b)
      else (if q mod 5 =? 0 then q + 1 else q, e) in
    inr (fix_ (mkDecimal (sign * c) e')).

(** [Decimal.quantize(Decimal(1).scaleb(-places), context)] in a context of
    precision [max_digits]. *)
Definition quantize (max_digits places : Z) (d : Decimal) : signal + Decimal :=
  if coef d =? 0 then inr (mkDecimal 0 (- places))
  else if max_digits <? exp d + ndigits (coef d) + places then inl InvalidOperation
  else
    let ans := rescale d (- places) in
    if max_digits <? ndigits (coef ans) then inl InvalidOperation
    else inr ans.



End decimal.

(** ** Exceptions and the state-and-error monad *)

(** The subclasses of Python's [Exception] that the modelled code can raise. *)
Inductive exn :=
| IntegrityError                (* django.db.IntegrityError *)
| DatabaseError                 (* any other django.db.Error *)
| RelatedObjectDoesNotExist     (* subclass of DoesNotExist and AttributeError *)
| AttributeError
| ValueError
| TypeError
| ValidationError (message : string)
| DecimalException (s : decimal.signal).

#[global] Instance exn_eq_dec : EqDecision exn.
Proof. solve_decision. Defined.

(** [isinstance(e, AttributeError)]. *)
Definition is_AttributeError (e : exn) : bool :=
  match e with
  | AttributeError | RelatedObjectDoesNotExist => true
  | _ => false
  end.

(** A computation over a mutable state [S]: it returns the new state together
    with either the raised exception or the result.  The state reached when
    the exception was raised is kept: nothing is rolled back. *)
Definition M (S A : Type) : Type := S → S * (exn + A).

#[global] Instance M_ret {S} : MRet (M S) := λ A a s, (s, inr a).

#[global] Instance M_bind {S} : MBind (M S) := λ A B f m s,
  match m s with
  | (s', inl e) => (s', inl e)
  | (s', inr a) => f a s'
  end.

Definition raise {S A} (e : exn) : M S A := λ s, (s, inl e).
Definition get {S} : M S S := λ s, (s, inr s).
Definition modify {S} (f : S → S) : M S unit := λ s, (f s, inr tt).

(** An [exn + A] computed without touching the state. *)
Definition lift {S A} (r : exn + A) : M S A := λ s, (s, r).

(** [try: body  except Exception: handler]. *)
Definition try_except {S A} (body : M S A) (handler : exn → M S A) : M S A :=
  λ s, match body s with
       | (s', inl e) => handler e s'
       | r => r
       end.

(** [hasattr(obj, name)]: [True] when the attribute access returns, [False]
    when it raises an [AttributeError]; any other exception propagates. *)
Definition hasattr {S A} (getattr : M S A) : M S bool :=
  λ s, match getattr s with
       | (s', inr _) => (s', inr true)
       | (s', inl e) => if is_AttributeError e then (s', inr false) else (s', inl e)
       end.

(** The state a computation leaves, whether it returned or raised. *)
Definition exec {S A} (m : M S A) (s : S) : S := (m s).1.

(** Python's [x or y] on strings: [x] when it is non-empty, else [y]. *)
Definition str_or (x y : string) : string := if decide (x = "") then y else x.

(** ** The model classes

    Each class is a module holding the record of its columns.  Text columns
    are strings, [PositiveIntegerField]s are naturals ([N]), [DecimalField]s
    are decimals, a nullable column is an [option], and a foreign key holds
    the primary key of the row it points to.  A float literal given for a
    decimal column stands for the decimal it denotes.  Timestamps, dates and
    uploaded files play no part in the operations below and are left out;
    neither [max_length] nor the validators are checked by [save]. *)

Import decimal.

Module User.
Record t := mk {
  pk : option nat;
  username : string;
  user_type : string;
  phone_number : string;
  address_line_1 : string;
  address_line_2 : string;
  city : string;
  state : string;
  postal_code : string;
  country : string;
  is_verified : bool;
  verification_status : string;
  business_name : string;
  business_registration_number : string;
  tax_id : string
}.

Definition set_pk (k : nat) (u : t) : t :=
  mk (Some k) (username u) (user_type u) (phone_number u) (address_line_1 u)
     (address_line_2 u) (city u) (state u) (postal_code u) (country u)
     (is_verified u) (verification_status u) (business_name u)
     (business_registration_number u) (tax_id u).

(** [User(username=..., user_type=..., phone_number=...)]: every other
    column at its declared default. *)
Definition new (username user_type phone_number : string) : t :=
  mk None username user_type phone_number "" "" "" "" "" "India" false
     "pending" "" "" "".

(** [', '.join([part for part in address_parts if part])]. *)
Definition full_address (self : t) : string :=
  let address_parts :=
    [address_line_1 self; address_line_2 self; city self; state self;
     postal_code self; country self] in
  String.concat ", " (filter (λ part, part ≠ "") address_parts).

Definition is_farmer (self : t) : bool := bool_decide (user_type self = "farmer").
Definition is_buyer (self : t) : bool := bool_decide (user_type self = "buyer").
Definition is_vendor (self : t) : bool := bool_decide (user_type self = "vendor").
End User.

Module FarmerProfile.
Record t := mk {
  pk : option nat;
  user : nat;
  farm_name : string;
  farm_size : string;
  farm_size_acres : Decimal;
  farming_type : string;
  farming_experience_years : N;
  farm_address : string;
  farm_latitude : option Decimal;
  farm_longitude : option Decimal;
  organic_certified : bool;
  organic_certification_number : string;
  bank_account_number : string;
  bank_name : string;
  bank_branch : string;
  ifsc_code : string;
  pan_number : string;
  average_rating : Decimal;
  total_reviews : N;
  is_active_seller : bool;
  subscription_plan : string
}.

Definition set_pk (k : nat) (p : t) : t :=
  mk (Some k) (user p) (farm_name p) (farm_size p) (farm_size_acres p)
     (farming_type p) (farming_experience_years p) (farm_address p)
     (farm_latitude p) (farm_longitude p) (organic_certified p)
     (organic_certification_number p) (bank_account_number p) (bank_name p)
     (bank_branch p) (ifsc_code p) (pan_number p) (average_rating p)
     (total_reviews p) (is_active_seller p) (subscription_plan p).

Definition set_decimals (acres : Decimal) (lat lon : option Decimal)
    (rating : Decimal) (p : t) : t :=
  mk (pk p) (user p) (farm_name p) (farm_size p) acres
     (farming_type p) (farming_experience_years p) (farm_address p)
     lat lon (organic_certified p)
     (organic_certification_number p) (bank_account_number p) (bank_name p)
     (bank_branch p) (ifsc_code p) (pan_number p) rating
     (total_reviews p) (is_active_seller p) (subscription_plan p).

(** [FarmerProfile(user=..., farm_name=..., farm_size=..., farm_size_acres=...,
    farming_experience_years=..., farm_address=...)]: the keyword arguments
    given, every other column at its declared default. *)
Definition new (user : nat) (farm_name farm_size : string)
    (farm_size_acres : Decimal) (farming_experience_years : N)
    (farm_address : string) : t :=
  mk None user farm_name farm_size farm_size_acres "conventional"
     farming_experience_years farm_address None None false "" "" "" "" "" ""
     (mkDecimal 0 (-2)) 0%N true "basic".
End FarmerProfile.

Module BuyerProfile.
Record t := mk {
  pk : option nat;
  user : nat;
  buyer_type : string;
  company_name : string;
  gst_number : string;
  preferred_delivery_time : string;
  special_instructions : string;
  total_orders : N;
  total_spent : Decimal;
  average_order_value : Decimal;
  loyalty_points : N;
  membership_tier : string;
  prefers_organic : bool;
  max_delivery_distance : N
}.

Definition set_pk (k : nat) (p : t) : t :=
  mk (Some k) (user p) (buyer_type p) (company_name p) (gst_number p)
     (preferred_delivery_time p) (special_instructions p) (total_orders p)
     (total_spent p) (average_order_value p) (loyalty_points p)
     (membership_tier p) (prefers_organic p) (max_delivery_distance p).

Definition set_total_orders (n : N) (p : t) : t :=
  mk (pk p) (user p) (buyer_type p) (company_name p) (gst_number p)
     (preferred_delivery_time p) (special_instructions p) n
     (total_spent p) (average_order_value p) (loyalty_points p)
     (membership_tier p) (prefers_organic p) (max_delivery_distance p).

Definition set_total_spent (d : Decimal) (p : t) : t :=
  mk (pk p) (user p) (buyer_type p) (company_name p) (gst_number p)
     (preferred_delivery_time p) (special_instructions p) (total_orders p)
     d (average_order_value p) (loyalty_points p)
     (membership_tier p) (prefers_organic p) (max_delivery_distance p).

Definition set_average_order_value (d : Decimal) (p : t) : t :=
  mk (pk p) (user p) (buyer_type p) (company_name p) (gst_number p)
     (preferred_delivery_time p) (special_instructions p) (total_orders p)
     (total_spent p) d (loyalty_points p)
     (membership_tier p) (prefers_organic p) (max_delivery_distance p).

(** [BuyerProfile(user=...)]: every other column at its declared default.
    The two decimal columns are given as the stored row holds them, [0.00];
    on the Python object they stay the float [0.0] of [default=0.00] until
    the object is read from the database. *)
Definition new (user : nat) : t :=
  mk None user "individual" "" "" "" "" 0%N (mkDecimal 0 (-2))
     (mkDecimal 0 (-2)) 0%N "bronze" false 50%N.
End BuyerProfile.

Module Address.
Record t := mk {
  pk : option nat;
  user : nat;
  address_type : string;
  title : string;
  address_line_1 : string;
  address_line_2 : string;
  city : string;
  state : string;
  postal_code : string;
  country : string;
  latitude : option Decimal;
  longitude : option Decimal;
  is_default : bool;
  is_active : bool
}.

Definition set_pk (k : nat) (a : t) : t :=
  mk (Some k) (user a) (address_type a) (title a) (address_line_1 a)
     (address_line_2 a) (city a) (state a) (postal_code a) (country a)
     (latitude a) (longitude a) (is_default a) (is_active a).

Definition set_is_default (b : bool) (a : t) : t :=
  mk (pk a) (user a) (address_type a) (title a) (address_line_1 a)
     (address_line_2 a) (city a) (state a) (postal_code a) (country a)
     (latitude a) (longitude a) b (is_active a).

Definition set_coordinates (lat lon : option Decimal) (a : t) : t :=
  mk (pk a) (user a) (address_type a) (title a) (address_line_1 a)
     (address_line_2 a) (city a) (state a) (postal_code a) (country a)
     lat lon (is_default a) (is_active a).

Definition full_address (self : t) : string :=
  let address_parts :=
    [address_line_1 self; address_line_2 self; city self; state self;
     postal_code self; country self] in
  String.concat ", " (filter (λ part, part ≠ "") address_parts).
End Address.

#[global] Instance User_eq_dec : EqDecision User.t.
Proof. solve_decision. Defined.
#[global] Instance FarmerProfile_eq_dec : EqDecision FarmerProfile.t.
Proof. solve_decision. Defined.
#[global] Instance BuyerProfile_eq_dec : EqDecision BuyerProfile.t.
Proof. solve_decision. Defined.
#[global] Instance Address_eq_dec : EqDecision Address.t.
Proof. solve_decision. Defined.

(** ** The database *)

Record DB := mkDB {
  users : gmap nat User.t;
  farmer_profiles : gmap nat FarmerProfile.t;
  buyer_profiles : gmap nat BuyerProfile.t;
  addresses : gmap nat Address.t
}.

Definition empty_db : DB := mkDB ∅ ∅ ∅ ∅.

Definition set_users (t : gmap nat User.t) (db : DB) : DB :=
  mkDB t (farmer_profiles db) (buyer_profiles db) (addresses db).
Definition set_farmer_profiles (t : gmap nat FarmerProfile.t) (db : DB) : DB :=
  mkDB (users db) t (buyer_profiles db) (addresses db).
Definition set_buyer_profiles (t : gmap nat BuyerProfile.t) (db : DB) : DB :=
  mkDB (users db) (farmer_profiles db) t (addresses db).
Definition set_addresses (t : gmap nat Address.t) (db : DB) : DB :=
  mkDB (users db) (farmer_profiles db) (buyer_profiles db) t.

(** ** The ORM: [Model.save], managers and query sets *)

(** What [django.db.models.Model] needs to know of a model class: its table,
    its primary key, how column values are prepared for the database
    ([get_db_prep_save]: a decimal is quantized to the column's
    [decimal_places] within [max_digits]), and when two rows break one of
    its unique constraints. *)
Class Model (R : Type) := {
  objects : DB → gmap nat R;
  set_objects : gmap nat R → DB → DB;
  pk_of : R → option nat;
  with_pk : nat → R → R;
  db_prep : R → exn + R;
  unique_conflict : R → R → bool
}.

(** [DecimalField.get_db_prep_save]. *)
Definition prep_decimal (max_digits decimal_places : Z) (d : Decimal) : exn + Decimal :=
  match quantize max_digits decimal_places d with
  | inl sig => inl (DecimalException sig)
  | inr q => inr q
  end.

Definition prep_decimal_null (max_digits decimal_places : Z) (d : option Decimal)
    : exn + option Decimal :=
  match d with
  | None => inr None
  | Some x =>
      match prep_decimal max_digits decimal_places x with
      | inl e => inl e
      | inr q => inr (Some q)
      end
  end.

#[global] Instance User_Model : Model User.t := {|
  objects := users;
  set_objects := set_users;
  pk_of := User.pk;
  with_pk := User.set_pk;
  db_prep := inr;
  unique_conflict a b :=
    bool_decide (User.username a = User.username b)
    || bool_decide (User.phone_number a = User.phone_number b)
|}.

#[global] Instance FarmerProfile_Model : Model FarmerProfile.t := {|
  objects := farmer_profiles;
  set_objects := set_farmer_profiles;
  pk_of := FarmerProfile.pk;
  with_pk := FarmerProfile.set_pk;
  db_prep p :=
    match prep_decimal 10 2 (FarmerProfile.farm_size_acres p),
          prep_decimal_null 9 6 (FarmerProfile.farm_latitude p),
          prep_decimal_null 9 6 (FarmerProfile.farm_longitude p),
          prep_decimal 3 2 (FarmerProfile.average_rating p) with
    | inr acres, inr lat, inr lon, inr rating =>
        inr (FarmerProfile.set_decimals acres lat lon rating p)
    | inl e, _, _, _ | _, inl e, _, _ | _, _, inl e, _ | _, _, _, inl e => inl e
    end;
  unique_conflict a b := bool_decide (FarmerProfile.user a = FarmerProfile.user b)
|}.

#[global] Instance BuyerProfile_Model : Model BuyerProfile.t := {|
  objects := buyer_profiles;
  set_objects := set_buyer_profiles;
  pk_of := BuyerProfile.pk;
  with_pk := BuyerProfile.set_pk;
  db_prep p :=
    match prep_decimal 12 2 (BuyerProfile.total_spent p),
          prep_decimal 10 2 (BuyerProfile.average_order_value p) with
    | inr spent, inr avg =>
        inr (BuyerProfile.set_average_order_value avg
               (BuyerProfile.set_total_spent spent p))
    | inl e, _ | _, inl e => inl e
    end;
  unique_conflict a b := bool_decide (BuyerProfile.user a = BuyerProfile.user b)
|}.

#[global] Instance Address_Model : Model Address.t := {|
  objects := addresses;
  set_objects := set_addresses;
  pk_of := Address.pk;
  with_pk := Address.set_pk;
  db_prep a :=
    match prep_decimal_null 9 6 (Address.latitude a),
          prep_decimal_null 9 6 (Address.longitude a) with
    | inr lat, inr lon => inr (Address.set_coordinates lat lon a)
    | inl e, _ | _, inl e => inl e
    end;
  unique_conflict a b :=
    bool_decide (Address.user a = Address.user b)
    && bool_decide (Address.title a = Address.title b)
|}.

Section orm.
Context {R : Type} `{Model R}.

(** Some row other than the one stored under [k] conflicts with [row]. *)
Definition unique_violation (k : nat) (row : R) (tbl : gmap nat R) : bool :=
  bool_decide (map_Exists (λ k' r, k' ≠ k ∧ unique_conflict row r = true) tbl).

(** [Model.save(force_insert=...)] on [self].  An object without primary
    key is inserted under a fresh one, which is then set on [self]; an
    object with a primary key overwrites the row stored under it (UPDATE)
    or, when there is none, is inserted under that key.  A broken unique
    constraint raises [IntegrityError] and writes nothing. *)
Definition Model_save (force_insert : bool) : M (R * DB) unit :=
  λ '(self, db),
    match db_prep self with
    | inl e => ((self, db), inl e)
    | inr row =>
        let tbl := objects db in
        match pk_of self with
        | Some k =>
            if force_insert && bool_decide (k ∈ dom tbl)
            then ((self, db), inl IntegrityError)
            else if unique_violation k row tbl
            then ((self, db), inl IntegrityError)
            else ((self, set_objects (<[k := row]> tbl) db), inr tt)
        | None =>
            let k := fresh (dom tbl) in
            if unique_violation k row tbl
            then ((self, db), inl IntegrityError)
            else ((with_pk k self, set_objects (<[k := with_pk k row]> tbl) db),
                  inr tt)
        end
    end.

(** Call a method on the object [self]: on return, the object as the
    method left it together with the method's result. *)
Definition call {A} (self : R) (method : M (R * DB) A) : M DB (R * A) :=
  λ db, match method (self, db) with
        | ((_, db'), inl e) => (db', inl e)
        | ((self', db'), inr a) => (db', inr (self', a))
        end.

(** [Manager.create]: build the object from the keyword arguments,
    [save(force_insert=True)], return it. *)
Definition objects_create (obj : R) : M DB R :=
  r ← call obj (Model_save true); mret r.1.

(** [objects.filter(cond).update(assign)]. *)
Definition filter_update (cond : R → bool) (assign : R → R) : M DB unit :=
  modify (λ db,
    set_objects ((λ r, if cond r then assign r else r) <$> objects db) db).

(** [objects.get(cond)] as the related-object descriptors use it: the row
    that satisfies [cond], when there is one. *)
Definition objects_first (cond : R → bool) (db : DB) : option R :=
  snd <$> head (map_to_list (filter (λ kr, cond kr.2 = true) (objects db))).
End orm.

(** Inside a method: read [self], assign to [self], run a query. *)
Definition self_ {R S} : M (R * S) R := λ s, (s, inr s.1).
Definition assign {R S} (f : R → R) : M (R * S) unit := λ s, ((f s.1, s.2), inr tt).
Definition query {R S A} (m : M S A) : M (R * S) A :=
  λ s, let '(s', r) := m s.2 in ((s.1, s'), r).

(** ** The methods and signal handlers of accounts/models.py *)

(** [BuyerProfile.update_purchase_stats(self, order_amount)]. *)
Definition BuyerProfile_update_purchase_stats (order_amount : Decimal)
    : M (BuyerProfile.t * DB) unit :=
  assign (λ self,
    BuyerProfile.set_total_orders (BuyerProfile.total_orders self + 1)%N self);;
  assign (λ self,
    BuyerProfile.set_total_spent (add (BuyerProfile.total_spent self) order_amount) self);;
  self ← self_;
  average ← lift
    match truediv (BuyerProfile.total_spent self)
                  (of_int (Z.of_N (BuyerProfile.total_orders self))) with
    | inl sig => inl (DecimalException sig)
    | inr q => inr q
    end;
  assign (BuyerProfile.set_average_order_value average);;
  Model_save false.

(** [Address.save(self)]. *)
Definition Address_save : M (Address.t * DB) unit :=
  self ← self_;
  (if Address.is_default self then
     query (filter_update
       (λ r, bool_decide (Address.user r = Address.user self) && Address.is_default r)
       (Address.set_is_default false))
   else mret tt);;
  Model_save false.

(** [create_user_profile(sender, instance, created)], a [post_save] receiver.
    A profile cannot be saved for an account that has no primary key yet
    (Django raises [ValueError] for an unsaved related object). *)
Definition create_user_profile (instance : User.t) (created : bool) : M DB unit :=
  if created then
    if decide (User.user_type instance = "farmer") then
      match User.pk instance with
      | None => raise ValueError
      | Some uid =>
          objects_create
            (FarmerProfile.new uid
               (User.username instance +:+ "'s Farm")
               "small"
               (mkDecimal 10 (-1))
               1%N
               (str_or (User.full_address instance) "Not specified"));;
          mret tt
      end
    else if decide (User.user_type instance ∈ ["buyer"; "vendor"]) then
      match User.pk instance with
      | None => raise ValueError
      | Some uid => objects_create (BuyerProfile.new uid);; mret tt
      end
    else mret tt
  else mret tt.

(** What [save_user_profile] asks of the ORM: the reverse one-to-one
    accessors [instance.farmer_profile] and [instance.buyer_profile], and the
    [save] of the profile they return.  Each may touch the database and may
    raise. *)
Class RelatedProfiles := {
  farmer_profile : User.t → M DB FarmerProfile.t;
  buyer_profile : User.t → M DB BuyerProfile.t;
  farmer_profile_save : FarmerProfile.t → M DB unit;
  buyer_profile_save : BuyerProfile.t → M DB unit
}.

(** [save_user_profile(sender, instance)], a [post_save] receiver. *)
Definition save_user_profile `{RelatedProfiles} (instance : User.t) : M DB unit :=
  try_except
    (is_farmer ←
       (if decide (User.user_type instance = "farmer")
        then hasattr (farmer_profile instance) else mret false : M DB bool);
     if is_farmer : bool then
       profile ← farmer_profile instance; farmer_profile_save profile
     else
       is_buyer ←
         (if decide (User.user_type instance ∈ ["buyer"; "vendor"])
          then hasattr (buyer_profile instance) else mret false : M DB bool);
       if is_buyer : bool then
         profile ← buyer_profile instance; buyer_profile_save profile
       else mret tt)
    (λ _, mret tt).

(** The accessors as Django implements them over the tables: the profile row
    whose [user] column is the account's primary key, or
    [RelatedObjectDoesNotExist].  The copy of the profile that Django caches
    on the account object is not modelled: the row is read anew. *)
Definition related {R} `{Model R} (user_of : R → nat) (instance : User.t) : M DB R :=
  λ db,
    match User.pk instance with
    | None => (db, inl RelatedObjectDoesNotExist)
    | Some uid =>
        match objects_first (λ r, bool_decide (user_of r = uid)) db with
        | None => (db, inl RelatedObjectDoesNotExist)
        | Some r => (db, inr r)
        end
    end.

#[global] Instance django_related : RelatedProfiles := {|
  farmer_profile := related FarmerProfile.user;
  buyer_profile := related BuyerProfile.user;
  farmer_profile_save p := call p (Model_save false);; mret tt;
  buyer_profile_save p := call p (Model_save false);; mret tt
|}.

(** [User.save(self)]: [super().save()] writes the row and then sends
    [post_save] to the two receivers, in the order they were connected, with
    [created] telling whether the row was inserted.  The account model holds
    no profile picture, so the resizing that follows does nothing. *)
Definition User_save : M (User.t * DB) unit :=
  self ← self_;
  db ← query (get (S:=DB));
  let created :=
    match User.pk self with
    | None => true
    | Some k => bool_decide (k ∉ dom (users db))
    end in
  Model_save false;;
  instance ← self_;
  query (create_user_profile instance created);;
  query (save_user_profile instance).

(** ** Python's [re] and Django's [RegexValidator]

    A Python [str] is a sequence of Unicode code points.  The patterns are
    those the phone validator is written with; matching backtracks the way
    [re] does, with the default flags (no [MULTILINE]). *)
Module re.

Inductive pattern :=
| Eps
| Bol                         (* ^ : at the start of the string *)
| Eol                         (* $ : at the end, or before a final newline *)
| Char (c : N)
| Range (lo hi : N)           (* [lo-hi] *)
| Digit                       (* \d *)
| Seq (p q : pattern)
| Opt (p : pattern).          (* (?:p)? , greedy *)

Fixpoint Lit (s : list N) : pattern :=
  match s with
  | [] => Eps
  | c :: s' => Seq (Char c) (Lit s')
  end.

(** [p{n}]. *)
Fixpoint Repeat (n : nat) (p : pattern) : pattern :=
  match n with
  | O => Eps
  | S n' => Seq p (Repeat n' p)
  end.

(** The code points of general category Nd (Unicode 14.0, the tables of
    CPython 3.11), as inclusive ranges. *)
Definition Nd_ranges : list (N * N) :=
  [(48, 57); (1632, 1641); (1776, 1785); (1984, 1993); (2406, 2415);
   (2534, 2543); (2662, 2671); (2790, 2799); (2918, 2927); (3046, 3055);
   (3174, 3183); (3302, 3311); (3430, 3439); (3558, 3567); (3664, 3673);
   (3792, 3801); (3872, 3881); (4160, 4169); (4240, 4249); (6112, 6121);
   (6160, 6169); (6470, 6479); (6608, 6617); (6784, 6793); (6800, 6809);
   (6992, 7001); (7088, 7097); (7232, 7241); (7248, 7257); (42528, 42537);
   (43216, 43225); (43264, 43273); (43472, 43481); (43504, 43513);
   (43600, 43609); (44016, 44025); (65296, 65305); (66720, 66729);
   (68912, 68921); (69734, 69743); (69872, 69881); (69942, 69951);
   (70096, 70105); (70384, 70393); (70736, 70745); (70864, 70873);
   (71248, 71257); (71360, 71369); (71472, 71481); (71904, 71913);
   (72016, 72025); (72784, 72793); (73040, 73049); (73120, 73129);
   (92768, 92777); (92864, 92873); (93008, 93017); (120782, 120831);
   (123200, 123209); (123632, 123641); (125264, 125273); (130032, 130041)]%N.

(** [str.isdecimal] on one character, which is what [\d] tests. *)
Definition isdecimal (c : N) : bool :=
  existsb (λ '(lo, hi), (lo <=? c)%N && (c <=? hi)%N) Nd_ranges.

(** Where [$] matches: at the end of the string, or just before a newline
    that ends it. *)
Definition at_end (s : list N) : bool :=
  match s with
  | [] => true
  | [c] => (c =? 10)%N
  | _ => false
  end.

(** [matches p at_start s k]: [p] matches a prefix of [s], the rest of the
    string being accepted by the continuation [k]; [at_start] tells whether
    [s] is the whole subject string. *)
Fixpoint matches (p : pattern) (at_start : bool) (s : list N)
    (k : bool → list N → bool) : bool :=
  match p with
  | Eps => k at_start s
  | Bol => at_start && k at_start s
  | Eol => at_end s && k at_start s
  | Char c =>
      match s with
      | x :: s' => (x =? c)%N && k false s'
      | [] => false
      end
  | Range lo hi =>
      match s with
      | x :: s' => (lo <=? x)%N && (x <=? hi)%N && k false s'
      | [] => false
      end
  | Digit =>
      match s with
      | x :: s' => isdecimal x && k false s'
      | [] => false
      end
  | Seq p1 p2 => matches p1 at_start s (λ b s', matches p2 b s' k)
  | Opt p1 => matches p1 at_start s k || k at_start s
  end.

Fixpoint search_from (p : pattern) (at_start : bool) (s : list N) : bool :=
  matches p at_start s (λ _ _, true)
  || match s with
     | [] => false
     | _ :: s' => search_from p false s'
     end.

(** [bool(re.compile(p).search(s))]. *)
Definition search (p : pattern) (s : list N) : bool := search_from p true s.

End re.

(** [str(value)] for a text written with ASCII characters. *)
Definition ord (c : Ascii.ascii) : N := Ascii.N_of_ascii c.
Definition str (s : string) : list N := ord <$> String.list_ascii_of_string s.

(** [RegexValidator(regex, message).__call__(value)]. *)
Definition RegexValidator (regex : re.pattern) (message : string) (value : list N)
    : exn + unit :=
  if re.search regex value then inr tt else inl (ValidationError message).

(** [User.phone_regex]: the pattern [^(?:\+91)?[6-9]\d{9}$], and its tail
    [[6-9]\d{9}$] on its own. *)
Definition mobile_pattern : re.pattern :=
  re.Seq (re.Range 54 57)                         (* ord('6'), ord('9') *)
    (re.Seq (re.Repeat 9 re.Digit) re.Eol).

Definition phone_pattern : re.pattern :=
  re.Seq re.Bol (re.Seq (re.Opt (re.Lit (str "+91"))) mobile_pattern).

Definition phone_regex : list N → exn + unit :=
  RegexValidator phone_pattern
    "Phone number must be entered in the format: '+999999999'. Up to 15 digits allowed.".

(** One of the characters [0] to [9]. *)
Definition ascii_digit (c : N) : bool := (48 <=? c)%N && (c <=? 57)%N.

Definition ten_digit_mobile (s : list N) : bool :=
  match s with
  | d :: rest =>
      (54 <=? d)%N && (d <=? 57)%N
      && bool_decide (length rest = 9%nat) && forallb ascii_digit rest
  | [] => false
  end.

(** [s] without the prefix [pre], when it starts with it. *)
Fixpoint removeprefix (pre s : list N) : option (list N) :=
  match pre, s with
  | [], _ => Some s
  | c :: pre', x :: s' => if (x =? c)%N then removeprefix pre' s' else None
  | _ :: _, [] => None
  end.

(** The phone numbers as the specification describes them: ten digits, the
    first one in 6-9, optionally preceded by [+91]. *)
Definition spec_phone_number (s : list N) : bool :=
  ten_digit_mobile s
  || match removeprefix (str "+91") s with
     | Some s' => ten_digit_mobile s'
     | None => false
     end.

(** The strings the validator lets through, read off the pattern: an optional
    [+91], a digit in 6-9, nine decimal digits of any script, and an optional
    final newline. *)
Definition accepted_phone_number (s : list N) : Prop :=
  ∃ prefix d ds nl,
    s = prefix ++ d :: ds ++ nl
    ∧ (prefix = [] ∨ prefix = str "+91")
    ∧ (54 ≤ d ≤ 57)%N
    ∧ length ds = 9%nat
    ∧ Forall (λ c, re.isdecimal c = true) ds
    ∧ (nl = [] ∨ nl = [10%N]).

(** ** Vocabulary of the properties *)

(** The primary key under which [save] stores [self]: its own, or the fresh
    one the table hands out. *)
Definition save_key {R} `{Model R} (self : R) (db : DB) : nat :=
  match pk_of self with
  | Some k => k
  | None => fresh (dom (objects db))
  end.

(** The database accepts [self]: its values fit their columns and no other
    row takes what its unique constraints reserve. *)
Definition save_accepted {R} `{Model R} (self : R) (db : DB) : bool :=
  match db_prep self with
  | inl _ => false
  | inr row => negb (unique_violation (save_key self db) row (objects db))
  end.

(** The rows of a table that belong to the account [uid]. *)
Definition rows_of {R} (user_of : R → nat) (uid : nat) (tbl : gmap nat R)
    : gmap nat R :=
  filter (λ kr, user_of kr.2 = uid) tbl.

(** What [filter(user=uid, is_default=True).update(is_default=False)] does to
    one row of the address table. *)
Definition clear_default (uid : nat) (r : Address.t) : Address.t :=
  if bool_decide (Address.user r = uid) && Address.is_default r
  then Address.set_is_default false r else r.

(** Every profile row points to a row of the account table (the foreign key
    of the one-to-one field). *)
Definition referential_integrity (db : DB) : Prop :=
  (∀ k r, farmer_profiles db !! k = Some r →
     FarmerProfile.user r ∈ dom (users db))
  ∧ (∀ k r, buyer_profiles db !! k = Some r →
       BuyerProfile.user r ∈ dom (users db)).

(** The account already has the profile that goes with its role tag. *)
Definition has_role_profile (instance : User.t) (db : DB) : Prop :=
  ∃ uid,
    User.pk instance = Some uid
    ∧ ((User.user_type instance = "farmer"
        ∧ rows_of FarmerProfile.user uid (farmer_profiles db) ≠ ∅)
       ∨ (User.user_type instance ∈ ["buyer"; "vendor"]
          ∧ rows_of BuyerProfile.user uid (buyer_profiles db) ≠ ∅)).






(** ** Sample data *)

Definition ravi : User.t :=
  User.mk (Some 1%nat) "ravi" "farmer" "9876543210" "12 Canal Road" "" "Guntur"
    "Andhra Pradesh" "522001" "India" false "pending" "" "" "".

Definition meera : User.t :=
  User.mk (Some 2%nat) "meera" "vendor" "9123456780" "" "" "" "" "" "India"
    false "pending" "" "" "".

(** A farmer account whose country was cleared, and a database that holds
    it. *)
Definition sita : User.t :=
  User.mk (Some 3%nat) "sita" "farmer" "9000000004" "" "" "Tenali" "" "" ""
    false "pending" "" "" "".

Definition sita_db : DB := set_users (<[3%nat := sita]> ∅) empty_db.

Definition home : Address.t :=
  Address.mk (Some 0%nat) 1 "home" "Home" "12 Canal Road" "" "Guntur"
    "Andhra Pradesh" "522001" "India" None None true true.

Definition farm : Address.t :=
  Address.mk (Some 1%nat) 1 "farm" "Main Farm" "Plot 7" "" "Tenali"
    "Andhra Pradesh" "522201" "India" None None false true.

Definition shop : Address.t :=
  Address.mk (Some 2%nat) 2 "office" "Shop" "4 Market Street" "" "Vijayawada"
    "Andhra Pradesh" "520001" "India" None None true true.

Definition office : Address.t :=
  Address.mk None 1 "office" "Office" "3 Mill Lane" "" "Guntur"
    "Andhra Pradesh" "522002" "India" None None true true.

Definition address_book : DB :=
  set_addresses (<[0%nat := home]> (<[1%nat := farm]> (<[2%nat := shop]> ∅)))
    empty_db.




(** A buyer with two orders worth 100.00 in all. *)
Definition two_orders : BuyerProfile.t :=
  BuyerProfile.mk (Some 0%nat) 2 "individual" "" "" "" "" 2%N
    (mkDecimal 10000 (-2)) (mkDecimal 5000 (-2)) 0%N "bronze" false 50%N.

Definition two_orders_db : DB :=
  set_buyer_profiles (<[0%nat := two_orders]> ∅) empty_db.

(** The database once [ravi]'s account has been provisioned. *)
Definition ravi_provisioned : DB := exec (create_user_profile ravi true) empty_db.

(** ** Database constraints *)

(** The rows of a table carry the primary key they are stored under. *)
Definition keyed {R} `{Model R} (tbl : gmap nat R) : Prop :=
  ∀ k r, tbl !! k = Some r → pk_of r = Some k.

(** No two rows of a table break one of the model's unique constraints. *)
Definition unique_rows {R} `{Model R} (tbl : gmap nat R) : Prop :=
  ∀ k1 k2 r1 r2,
    tbl !! k1 = Some r1 → tbl !! k2 = Some r2 →
    unique_conflict r1 r2 = true → k1 = k2.

(** An account has at most one address with [is_default = True]. *)
Definition single_default (tbl : gmap nat Address.t) : Prop :=
  ∀ k1 k2 r1 r2,
    tbl !! k1 = Some r1 → tbl !! k2 = Some r2 →
    Address.user r1 = Address.user r2 →
    Address.is_default r1 = true → Address.is_default r2 = true → k1 = k2.

(** A second address titled "Home" for the account of [home]. *)
Definition second_home : Address.t :=
  Address.mk None 1 "shipping" "Home" "9 Temple Street" "" "Guntur"
    "Andhra Pradesh" "522003" "India" None None true true.

(** Accounts that are not stored yet. *)
Definition lakshmi : User.t := User.new "lakshmi" "farmer" "9000000001".
Definition arun : User.t := User.new "arun" "buyer" "9000000002".
Definition root_admin : User.t := User.new "root" "admin" "9000000003".

(** An account that is not stored yet and gives the phone number of [ravi]. *)
Definition ravi_again : User.t := User.new "ravi2" "farmer" "9876543210".

(** A database holding the account of [ravi]. *)
Definition ravi_db : DB := set_users (<[1%nat := ravi]> ∅) empty_db.

(** [ravi]'s account after an administrator has turned it into a buyer. *)
Definition ravi_buyer : User.t :=
  User.mk (Some 1%nat) "ravi" "buyer" "9876543210" "12 Canal Road" "" "Guntur"
    "Andhra Pradesh" "522001" "India" false "pending" "" "" "".



(** ** Declared field limits *)

Definition FARMING_TYPE_CHOICES : list (string * string) :=
  [("organic", "Organic Farming"); ("conventional", "Conventional Farming");
   ("hydroponic", "Hydroponic Farming"); ("mixed", "Mixed Farming")].

Definition FARM_SIZE_CHOICES : list (string * string) :=
  [("small", "Small (< 2 acres)"); ("medium", "Medium (2-10 acres)");
   ("large", "Large (10-50 acres)"); ("industrial", "Industrial (> 50 acres)")].

(** What the field declarations of [FarmerProfile] state about the columns of
    a row: [max_length], [choices], the columns that may not be blank,
    [MinValueValidator(0)] on the acreage, [MaxValueValidator(100)] on the
    years of experience, and the digits of the decimal columns.  Neither
    [save] nor [objects.create] checks any of them but the last. *)
Definition FarmerProfile_within_limits (p : FarmerProfile.t) : Prop :=
  FarmerProfile.farm_name p ≠ ""
  ∧ (String.length (FarmerProfile.farm_name p) ≤ 200)%nat
  ∧ FarmerProfile.farm_size p ∈ FARM_SIZE_CHOICES.*1
  ∧ (String.length (FarmerProfile.farm_size p) ≤ 20)%nat
  ∧ 0 ≤ coef (FarmerProfile.farm_size_acres p)
  ∧ prep_decimal 10 2 (FarmerProfile.farm_size_acres p)
    = inr (FarmerProfile.farm_size_acres p)
  ∧ FarmerProfile.farming_type p ∈ FARMING_TYPE_CHOICES.*1
  ∧ (String.length (FarmerProfile.farming_type p) ≤ 20)%nat
  ∧ (FarmerProfile.farming_experience_years p ≤ 100)%N
  ∧ FarmerProfile.farm_address p ≠ ""
  ∧ (String.length (FarmerProfile.organic_certification_number p) ≤ 100)%nat
  ∧ (String.length (FarmerProfile.bank_account_number p) ≤ 50)%nat
  ∧ (String.length (FarmerProfile.bank_name p) ≤ 100)%nat
  ∧ (String.length (FarmerProfile.bank_branch p) ≤ 100)%nat
  ∧ (String.length (FarmerProfile.ifsc_code p) ≤ 11)%nat
  ∧ (String.length (FarmerProfile.pan_number p) ≤ 10)%nat
  ∧ prep_decimal 3 2 (FarmerProfile.average_rating p)
    = inr (FarmerProfile.average_rating p)
  ∧ FarmerProfile.subscription_plan p ≠ ""
  ∧ (String.length (FarmerProfile.subscription_plan p) ≤ 50)%nat.

(** The six components of an address, in the order they are formatted. *)
Definition address_parts (a : Address.t) : list string :=
  [Address.address_line_1 a; Address.address_line_2 a; Address.city a;
   Address.state a; Address.postal_code a; Address.country a].

(** A database holding the account of [ravi] and his farmer profile. *)
Definition ravi_farm : FarmerProfile.t :=
  FarmerProfile.set_pk 0
    (FarmerProfile.new 1 "ravi's Farm" "small" (mkDecimal 100 (-2)) 1%N
       "12 Canal Road, Guntur, Andhra Pradesh, 522001, India").

Definition ravi_farm_db : DB :=
  set_farmer_profiles (<[0%nat := ravi_farm]> ∅) ravi_db.
(** * Properties *)

(** ** Running computations *)

Ltac run :=
  unfold exec, mbind, M_bind, mret, M_ret, raise, get, modify, lift,
    assign, self_, query, call, try_except, hasattr in *;
  simpl in *.

Lemma bind_run {S A B} (m : M S A) (f : A → M S B) (s : S) :
  (m ≫= f) s =
    match m s with
    | (s', inl e) => (s', inl e)
    | (s', inr a) => f a s'
    end.
Proof. reflexivity. Qed.

Lemma try_except_returns {S} (body : M S unit) (s : S) :
  ∃ s', try_except body (λ _, mret tt) s = (s', inr tt).
Proof.
  unfold try_except. destruct (body s) as [s' [e | []]]; eauto.
Qed.

(** ** Formatted addresses *)

Lemma concat_cons_empty (sep x : string) (xs : list string) :
  String.concat sep (x :: xs) = "" → x = "".
Proof.
  destruct xs as [| y ys]; simpl; [done |].
  destruct x; [done | discriminate].
Qed.

Lemma join_nonempty_parts (sep : string) (parts : list string) :
  String.concat sep (filter (λ part, part ≠ "") parts) = ""
  ↔ Forall (λ part, part = "") parts.
Proof.
  induction parts as [| p parts IH]; simpl.
  - split; [constructor | done].
  - destruct (decide (p = "")) as [-> | Hp].
    + rewrite filter_cons_False by (intros H; by apply H).
      rewrite IH. split; [by constructor | by inversion 1].
    + rewrite filter_cons_True by done. split.
      * intros H%concat_cons_empty. done.
      * inversion 1; done.
Qed.

Lemma full_address_empty (u : User.t) :
  User.full_address u = ""
  ↔ User.address_line_1 u = "" ∧ User.address_line_2 u = "" ∧ User.city u = ""
    ∧ User.state u = "" ∧ User.postal_code u = "" ∧ User.country u = "".
Proof.
  unfold User.full_address. rewrite join_nonempty_parts.
  rewrite !Forall_cons, Forall_nil. tauto.
Qed.

Lemma str_or_nonempty (x y : string) : x ≠ "" → str_or x y = x.
Proof. intros Hx. unfold str_or. by destruct (decide (x = "")). Qed.

Lemma str_or_empty (y : string) : str_or "" y = y.
Proof. reflexivity. Qed.

(** ** [Model.save] *)

Lemma unique_violation_spec {R} `{Model R} (k : nat) (row : R) (tbl : gmap nat R) :
  unique_violation k row tbl = true
  ↔ ∃ k' r, tbl !! k' = Some r ∧ k' ≠ k ∧ unique_conflict row r = true.
Proof.
  unfold unique_violation. rewrite bool_decide_eq_true. reflexivity.
Qed.

Lemma unique_violation_fmap {R} `{Model R} (g : R → R) (k : nat) (row : R)
    (tbl : gmap nat R) :
  (∀ r, unique_conflict row (g r) = unique_conflict row r) →
  unique_violation k row (g <$> tbl) = unique_violation k row tbl.
Proof.
  intros Hg. apply eq_true_iff_eq. rewrite !unique_violation_spec.
  split.
  - intros (k' & r' & Hk' & Hne & Hc).
    rewrite lookup_fmap in Hk'.
    destruct (tbl !! k') as [r |] eqn:Hr; simplify_eq/=.
    exists k', r. by rewrite <- Hg.
  - intros (k' & r & Hk' & Hne & Hc).
    exists k', (g r). rewrite lookup_fmap, Hk'. by rewrite Hg.
Qed.

(** ** Addresses: the default flag *)

Lemma Address_prep_columns (a row : Address.t) :
  db_prep a = inr row →
  Address.pk row = Address.pk a ∧ Address.user row = Address.user a
  ∧ Address.title row = Address.title a
  ∧ Address.is_default row = Address.is_default a.
Proof.
  simpl. intros H.
  destruct (prep_decimal_null 9 6 (Address.latitude a)),
    (prep_decimal_null 9 6 (Address.longitude a)); simplify_eq/=; done.
Qed.

Lemma Address_conflict_prep (a row r : Address.t) :
  db_prep a = inr row → unique_conflict row r = unique_conflict a r.
Proof.
  intros (_ & Hu & Ht & _)%Address_prep_columns. simpl. by rewrite Hu, Ht.
Qed.

Lemma Address_save_run (a : Address.t) (db : DB) :
  Address_save (a, db) =
    Model_save false
      (a, if Address.is_default a
          then set_addresses (clear_default (Address.user a) <$> addresses db) db
          else db).
Proof.
  unfold Address_save. run. destruct (Address.is_default a); reflexivity.
Qed.

Lemma Address_Model_save (a row : Address.t) (db : DB) :
  db_prep a = inr row →
  unique_violation (save_key a db) row (addresses db) = false →
  ∃ a' row',
    Model_save false (a, db)
      = ((a', set_addresses (<[save_key a db := row']> (addresses db)) db), inr tt)
    ∧ Address.pk a' = Some (save_key a db)
    ∧ Address.user row' = Address.user a
    ∧ Address.title row' = Address.title a
    ∧ Address.is_default row' = Address.is_default a.
Proof.
  intros Hprep Hfree.
  destruct (Address_prep_columns _ _ Hprep) as (Hpk & Hu & Ht & Hd).
  unfold Model_save, save_key in *. rewrite Hprep. simpl in *.
  destruct (Address.pk a) as [k |] eqn:Hk; rewrite Hfree.
  - exists a, row. by rewrite Hk.
  - eexists _, _. split; [reflexivity |]. simpl. done.
Qed.

Lemma clear_default_conflict (uid : nat) (a r : Address.t) :
  unique_conflict a (clear_default uid r) = unique_conflict a r.
Proof. unfold clear_default. by destruct (_ && _). Qed.

Lemma clear_default_decide (uid : nat) (r : Address.t) :
  clear_default uid r =
    if decide (Address.user r = uid) then Address.set_is_default false r else r.
Proof.
  unfold clear_default.
  destruct (decide (Address.user r = uid)) as [Hu | Hu].
  - rewrite bool_decide_eq_true_2 by done. simpl.
    destruct (Address.is_default r) eqn:Hd; [done |].
    destruct r; simpl in *; by subst.
  - by rewrite bool_decide_eq_false_2.
Qed.

Lemma clear_default_not_default (uid : nat) (r : Address.t) :
  Address.user r = uid → Address.is_default (clear_default uid r) = false.
Proof.
  intros Hu. rewrite clear_default_decide.
  by destruct (decide (Address.user r = uid)).
Qed.

Lemma clear_default_user (uid : nat) (r : Address.t) :
  Address.user (clear_default uid r) = Address.user r.
Proof. unfold clear_default. by destruct (_ && _). Qed.

(** C1.  Saving an address [a] with [is_default = True] that the database
    accepts returns normally and leaves [a] stored under its primary key [k]
    with the flag set; every other address of the same account is the row it
    was with [is_default] cleared, the addresses of other accounts are
    untouched, and so [k] is the only address of the account with
    [is_default = True], whatever the flags were before. *)
Theorem Address_save_default_exclusive (a : Address.t) (db : DB) :
  Address.is_default a = true →
  save_accepted a db = true →
  ∃ k a' db' row,
    Address_save (a, db) = ((a', db'), inr tt)
    ∧ Address.pk a' = Some k
    ∧ addresses db' !! k = Some row
    ∧ Address.user row = Address.user a
    ∧ Address.title row = Address.title a
    ∧ Address.is_default row = true
    ∧ (∀ k' r, k' ≠ k → addresses db !! k' = Some r →
         addresses db' !! k' =
           Some (if decide (Address.user r = Address.user a)
                 then Address.set_is_default false r else r))
    ∧ (∀ k', k' ≠ k → addresses db !! k' = None → addresses db' !! k' = None)
    ∧ (∀ k' r, addresses db' !! k' = Some r →
         Address.user r = Address.user a → Address.is_default r = true → k' = k).
Proof.
  intros Hdef Hacc. rewrite Address_save_run, Hdef.
  unfold save_accepted in Hacc.
  destruct (db_prep a) as [e | row] eqn:Hprep; [done |].
  apply negb_true_iff in Hacc. simpl in Hacc.
  set (db1 := set_addresses (clear_default (Address.user a) <$> addresses db) db).
  assert (Hkey : save_key a db1 = save_key a db).
  { unfold save_key. simpl. by rewrite dom_fmap_L. }
  destruct (Address_Model_save a row db1 Hprep) as (a' & row' & Hrun & Hpk & Hu & Ht & Hd).
  { rewrite Hkey. simpl. rewrite unique_violation_fmap; [done |].
    intros r. rewrite !(Address_conflict_prep a row) by done.
    apply clear_default_conflict. }
  rewrite Hkey in *. set (k := save_key a db) in *.
  eexists k, a', _, row'. split; [exact Hrun |]. simpl.
  rewrite lookup_insert_eq. repeat split; [done .. | congruence | | |].
  - intros k' r Hne Hr. rewrite lookup_insert_ne by done.
    by rewrite lookup_fmap, Hr, <- clear_default_decide.
  - intros k' Hne Hr. rewrite lookup_insert_ne by done.
    by rewrite lookup_fmap, Hr.
  - intros k' r Hr Hur Hdr. destruct (decide (k' = k)) as [| Hne]; [done |].
    rewrite lookup_insert_ne, lookup_fmap in Hr by done.
    destruct (addresses db !! k') as [r0 |]; simplify_eq/=.
    rewrite clear_default_user in Hur.
    by rewrite clear_default_not_default in Hdr.
Qed.

(** C8.  Saving an address with [is_default = False] leaves every other
    stored address as it was, its [is_default] flag included, whether or not
    the save goes through: no address is promoted to default. *)
Theorem Address_save_not_default_frame (a : Address.t) (db : DB) :
  Address.is_default a = false →
  ∀ k r, addresses db !! k = Some r → Address.pk a ≠ Some k →
    addresses (exec Address_save (a, db)).2 !! k = Some r.
Proof.
  intros Hdef k r Hr Hne. unfold exec.
  rewrite Address_save_run, Hdef. unfold Model_save.
  destruct (db_prep a) as [e | row]; [done |].
  change (pk_of a) with (Address.pk a).
  destruct (Address.pk a) as [k0 |]; simpl.
  - destruct (unique_violation _ _ _); simpl; [done |].
    rewrite lookup_insert_ne; [done | congruence].
  - destruct (unique_violation _ _ _); simpl; [done |].
    rewrite lookup_insert_ne; [done |].
    intros <-. apply (is_fresh (dom (addresses db))).
    apply elem_of_dom. eauto.
Qed.

(** When the database refuses the address (its title is taken, or a
    coordinate does not fit), the flags have been cleared all the same: the
    method raises and leaves the account without any default address. *)
Lemma Address_save_refused (a : Address.t) (db : DB) :
  Address.is_default a = true →
  save_accepted a db = false →
  ∃ e,
    Address_save (a, db)
    = ((a, set_addresses (clear_default (Address.user a) <$> addresses db) db),
       inl e).
Proof.
  intros Hdef Hacc. rewrite Address_save_run, Hdef.
  unfold save_accepted in Hacc. unfold Model_save.
  destruct (db_prep a) as [e | row] eqn:Hprep; [by exists e |].
  apply negb_false_iff in Hacc. simpl in Hacc.
  set (db1 := set_addresses (clear_default (Address.user a) <$> addresses db) db).
  assert (Hv : unique_violation (save_key a db1) row (objects db1) = true).
  { unfold save_key. simpl. rewrite dom_fmap_L.
    rewrite unique_violation_fmap; [exact Hacc |].
    intros r. rewrite !(Address_conflict_prep a row) by done.
    apply clear_default_conflict. }
  exists IntegrityError. unfold save_key in Hv. simpl in *.
  destruct (Address.pk a); by rewrite Hv.
Qed.

(** ** Creating a row through the manager *)

Section create.
Context {R : Type} `{Model R}.
Hypothesis objects_set :
  ∀ (t : gmap nat R) (db : DB), objects (set_objects t db) = t.
Hypothesis conflict_with_pk :
  ∀ (k : nat) (row : R), unique_conflict row (with_pk k row) = true.

Lemma objects_create_run (obj row : R) (db : DB) :
  pk_of obj = None →
  db_prep obj = inr row →
  objects_create obj db =
    let k := fresh (dom (objects db)) in
    if unique_violation k row (objects db) then (db, inl IntegrityError)
    else (set_objects (<[k := with_pk k row]> (objects db)) db,
          inr (with_pk k obj)).
Proof.
  intros Hpk Hprep. unfold objects_create, Model_save. run.
  rewrite Hprep, Hpk. simpl.
  by destruct (unique_violation _ _ _).
Qed.

Lemma objects_create_fresh (obj row : R) (db : DB) :
  pk_of obj = None →
  db_prep obj = inr row →
  (∀ k r, objects db !! k = Some r → unique_conflict row r = false) →
  objects_create obj db =
    let k := fresh (dom (objects db)) in
    (set_objects (<[k := with_pk k row]> (objects db)) db, inr (with_pk k obj)).
Proof.
  intros Hpk Hprep Hfree. rewrite (objects_create_run obj row) by done.
  simpl. destruct (unique_violation _ _ _) eqn:Hv; [| done].
  apply unique_violation_spec in Hv as (k' & r & Hr & _ & Hc).
  rewrite (Hfree _ _ Hr) in Hc. done.
Qed.

(** A second [create] of the same object writes nothing: the row left by
    the first one, or the row that made the first one fail, is in its way. *)
Lemma objects_create_twice (obj row : R) (db : DB) :
  pk_of obj = None →
  db_prep obj = inr row →
  exec (objects_create obj) (exec (objects_create obj) db)
  = exec (objects_create obj) db.
Proof.
  intros Hpk Hprep. unfold exec.
  rewrite (objects_create_run obj row db) by done. simpl.
  destruct (unique_violation _ _ (objects db)) eqn:Hv; simpl.
  - rewrite (objects_create_run obj row db) by done. simpl. by rewrite Hv.
  - rewrite (objects_create_run obj row) by done. simpl.
    rewrite objects_set.
    set (k := fresh (dom (objects db))).
    set (tbl := <[k := with_pk k row]> (objects db)).
    destruct (unique_violation (fresh (dom tbl)) row tbl) eqn:Hv'; [done |].
    apply not_true_iff_false in Hv'. destruct Hv'.
    apply unique_violation_spec. exists k, (with_pk k row).
    split; [apply lookup_insert_eq |]. split; [| apply conflict_with_pk].
    intros Hk. apply (is_fresh (dom tbl)). rewrite <- Hk.
    apply elem_of_dom. unfold tbl. rewrite lookup_insert_eq. eauto.
Qed.
End create.

(** ** Provisioning the role profile *)

Lemma rows_of_empty {R} (user_of : R → nat) (uid : nat) (tbl : gmap nat R) :
  rows_of user_of uid tbl = ∅ ↔ ∀ k r, tbl !! k = Some r → user_of r ≠ uid.
Proof.
  unfold rows_of. rewrite map_empty_filter. unfold map_Forall. simpl. done.
Qed.

Lemma rows_of_insert_new {R} (user_of : R → nat) (uid k : nat) (row : R)
    (tbl : gmap nat R) :
  user_of row = uid →
  rows_of user_of uid tbl = ∅ →
  rows_of user_of uid (<[k := row]> tbl) = {[k := row]}.
Proof.
  intros Hu He. unfold rows_of in *.
  rewrite map_filter_insert_True by done. rewrite He. done.
Qed.

Lemma farmer_prep (uid : nat) (name size : string) (years : N) (addr : string) :
  db_prep (FarmerProfile.new uid name size (mkDecimal 10 (-1)) years addr)
  = inr (FarmerProfile.new uid name size (mkDecimal 100 (-2)) years addr).
Proof. reflexivity. Qed.

Lemma buyer_prep (uid : nat) :
  db_prep (BuyerProfile.new uid) = inr (BuyerProfile.new uid).
Proof. reflexivity. Qed.

Ltac role_absurd H :=
  exfalso; apply list_elem_of_In in H; simpl in H; intuition discriminate.

Lemma create_user_profile_farmer (instance : User.t) (uid : nat) :
  User.user_type instance = "farmer" →
  User.pk instance = Some uid →
  create_user_profile instance true =
    (objects_create
       (FarmerProfile.new uid (User.username instance +:+ "'s Farm") "small"
          (mkDecimal 10 (-1)) 1%N
          (str_or (User.full_address instance) "Not specified"));;
     mret tt).
Proof.
  intros Ht Hpk. unfold create_user_profile. rewrite Ht, Hpk.
  by destruct (decide _).
Qed.

Lemma create_user_profile_buyer (instance : User.t) (uid : nat) :
  User.user_type instance ∈ ["buyer"; "vendor"] →
  User.pk instance = Some uid →
  create_user_profile instance true =
    (objects_create (BuyerProfile.new uid);; mret tt).
Proof.
  intros Ht Hpk. unfold create_user_profile. rewrite Hpk.
  destruct (decide (User.user_type instance = "farmer")) as [Hf | _].
  - rewrite Hf in Ht. by role_absurd Ht.
  - by destruct (decide _).
Qed.

Lemma create_user_profile_other (instance : User.t) (created : bool) (db : DB) :
  User.user_type instance ∉ ["farmer"; "buyer"; "vendor"] →
  create_user_profile instance created db = (db, inr tt).
Proof.
  intros Ht. unfold create_user_profile.
  destruct created; [| done].
  destruct (decide _) as [Hf | _].
  { destruct Ht. rewrite Hf. by left. }
  destruct (decide _) as [Hb | _]; [| done].
  destruct Ht. by right.
Qed.

Lemma exec_then_ret {S A} (m : M S A) (s : S) :
  exec (m;; mret tt) s = exec m s.
Proof. unfold exec. run. by destruct (m s) as [s' [e | a]]. Qed.

Lemma create_user_profile_farmer_run (instance : User.t) (uid : nat) (db : DB) :
  User.pk instance = Some uid →
  User.user_type instance = "farmer" →
  rows_of FarmerProfile.user uid (farmer_profiles db) = ∅ →
  create_user_profile instance true db =
    let k := fresh (dom (farmer_profiles db)) in
    (set_farmer_profiles
       (<[k := FarmerProfile.set_pk k
                 (FarmerProfile.new uid (User.username instance +:+ "'s Farm")
                    "small" (mkDecimal 100 (-2)) 1%N
                    (str_or (User.full_address instance) "Not specified"))]>
          (farmer_profiles db)) db,
     inr tt).
Proof.
  intros Hpk Ht Hnone.
  rewrite (create_user_profile_farmer instance uid) by done.
  set (obj := FarmerProfile.new _ _ _ _ _ _).
  pose proof (objects_create_fresh (R := FarmerProfile.t) obj _ db
                eq_refl (farmer_prep _ _ _ _ _)) as Hrun.
  rewrite bind_run, Hrun; [reflexivity |].
  intros k r Hr. apply bool_decide_eq_false.
  rewrite rows_of_empty in Hnone. intros Heq. by apply (Hnone k r).
Qed.

Lemma create_user_profile_buyer_run (instance : User.t) (uid : nat) (db : DB) :
  User.pk instance = Some uid →
  User.user_type instance ∈ ["buyer"; "vendor"] →
  rows_of BuyerProfile.user uid (buyer_profiles db) = ∅ →
  create_user_profile instance true db =
    let k := fresh (dom (buyer_profiles db)) in
    (set_buyer_profiles
       (<[k := BuyerProfile.set_pk k (BuyerProfile.new uid)]> (buyer_profiles db))
       db,
     inr tt).
Proof.
  intros Hpk Ht Hnone.
  rewrite (create_user_profile_buyer instance uid) by done.
  pose proof (objects_create_fresh (R := BuyerProfile.t) (BuyerProfile.new uid)
                _ db eq_refl (buyer_prep uid)) as Hrun.
  rewrite bind_run, Hrun; [reflexivity |].
  intros k r Hr. apply bool_decide_eq_false.
  rewrite rows_of_empty in Hnone. intros Heq. by apply (Hnone k r).
Qed.

(** C2.  On the creation event of an account whose role tag is ['farmer'],
    [create_user_profile] returns normally and inserts one row into the
    farmer profile table, after which that row is the only farmer profile of
    the account; its farm name is the username followed by ['s Farm], its
    [farm_size] is ['small'], its [farming_experience_years] is 1 and its
    [farm_address] is the formatted address of the account, or
    ['Not specified'] when that is empty. *)
Theorem create_user_profile_farmer_exactly_one
    (instance : User.t) (uid : nat) (db : DB) :
  User.pk instance = Some uid →
  User.user_type instance = "farmer" →
  rows_of FarmerProfile.user uid (farmer_profiles db) = ∅ →
  ∃ k profile,
    create_user_profile instance true db
      = (set_farmer_profiles (<[k := profile]> (farmer_profiles db)) db, inr tt)
    ∧ farmer_profiles db !! k = None
    ∧ rows_of FarmerProfile.user uid
        (farmer_profiles (exec (create_user_profile instance true) db))
      = {[k := profile]}
    ∧ FarmerProfile.user profile = uid
    ∧ FarmerProfile.farm_name profile = User.username instance +:+ "'s Farm"
    ∧ FarmerProfile.farm_size profile = "small"
    ∧ FarmerProfile.farming_experience_years profile = 1%N
    ∧ FarmerProfile.farm_address profile =
        (if decide (User.full_address instance = "") then "Not specified"
         else User.full_address instance).
Proof.
  intros Hpk Ht Hnone.
  pose proof (create_user_profile_farmer_run instance uid db Hpk Ht Hnone)
    as Hrun.
  eexists _, _. split; [exact Hrun |].
  split; [apply not_elem_of_dom, is_fresh |].
  split; [| done].
  unfold exec. rewrite Hrun. simpl. by apply rows_of_insert_new.
Qed.

(** C3.  On the creation event of an account whose role tag is ['buyer'] or
    ['vendor'], [create_user_profile] returns normally and inserts one row
    into the buyer profile table, after which that row is the only buyer
    profile of the account; the row holds the declared default of every
    column, [total_orders = 0] among them.  For the role tag ['admin'] the
    handler returns without touching the database. *)
Theorem create_user_profile_buyer_exactly_one :
  (∀ (instance : User.t) (uid : nat) (db : DB),
     User.pk instance = Some uid →
     User.user_type instance ∈ ["buyer"; "vendor"] →
     rows_of BuyerProfile.user uid (buyer_profiles db) = ∅ →
     ∃ k profile,
       create_user_profile instance true db
         = (set_buyer_profiles (<[k := profile]> (buyer_profiles db)) db, inr tt)
       ∧ buyer_profiles db !! k = None
       ∧ rows_of BuyerProfile.user uid
           (buyer_profiles (exec (create_user_profile instance true) db))
         = {[k := profile]}
       ∧ profile = BuyerProfile.set_pk k (BuyerProfile.new uid)
       ∧ BuyerProfile.total_orders profile = 0%N)
  ∧ (∀ (instance : User.t) (created : bool) (db : DB),
       User.user_type instance = "admin" →
       create_user_profile instance created db = (db, inr tt)).
Proof.
  split.
  - intros instance uid db Hpk Ht Hnone.
    pose proof (create_user_profile_buyer_run instance uid db Hpk Ht Hnone)
      as Hrun.
    eexists _, _. split; [exact Hrun |].
    split; [apply not_elem_of_dom, is_fresh |].
    split; [| done].
    unfold exec. rewrite Hrun. simpl. by apply rows_of_insert_new.
  - intros instance created db Ht.
    apply create_user_profile_other. rewrite Ht.
    intros H. by role_absurd H.
Qed.

Lemma rows_of_nonempty {R} (user_of : R → nat) (uid : nat) (tbl : gmap nat R) :
  rows_of user_of uid tbl ≠ ∅ → ∃ k r, tbl !! k = Some r ∧ user_of r = uid.
Proof.
  intros (k & r & Hr)%map_choose. exists k, r.
  unfold rows_of in Hr. by apply map_lookup_filter_Some in Hr.
Qed.

(** A [create] of a row for an account that has one is refused. *)
Lemma objects_create_taken {R} `{Model R} (obj row : R) (db : DB) :
  pk_of obj = None →
  db_prep obj = inr row →
  (∃ k r, objects db !! k = Some r ∧ unique_conflict row r = true) →
  objects_create obj db = (db, inl IntegrityError).
Proof.
  intros Hpk Hprep (k & r & Hr & Hc).
  rewrite (objects_create_run obj row db Hpk Hprep). cbv zeta.
  destruct (unique_violation _ _ _) eqn:Hv; [done |].
  apply not_true_iff_false in Hv. destruct Hv.
  apply unique_violation_spec. exists k, r. split; [done |]. split; [| done].
  intros ->. apply (is_fresh (dom (objects db))).
  apply elem_of_dom. eauto.
Qed.

(** C4.  Provisioning is idempotent: once [create_user_profile] has run for
    the creation of an account, running it again for the same account leaves
    the database exactly as the first run left it, whether the second run is
    told [created] or not; an invocation with [created = False] returns
    without writing anything; and for an account that already has the
    profile of its role, an invocation with [created = True] is refused by
    the one-to-one constraint ([IntegrityError]) and writes nothing. *)
Theorem create_user_profile_idempotent :
  (∀ (instance : User.t) (created : bool) (db : DB),
     exec (create_user_profile instance created)
       (exec (create_user_profile instance true) db)
     = exec (create_user_profile instance true) db)
  ∧ (∀ (instance : User.t) (db : DB),
       create_user_profile instance false db = (db, inr tt))
  ∧ (∀ (instance : User.t) (db : DB),
       has_role_profile instance db →
       create_user_profile instance true db = (db, inl IntegrityError)).
Proof.
  split; [| split; [done |]].
  - intros instance [] db; [| done].
    destruct (decide (User.user_type instance ∈ ["farmer"; "buyer"; "vendor"]))
      as [Hrole | Hrole].
    2: { unfold exec. by rewrite !create_user_profile_other. }
    destruct (User.pk instance) as [uid |] eqn:Hpk.
    2: { unfold create_user_profile. rewrite Hpk.
         by repeat destruct (decide _). }
    apply elem_of_cons in Hrole as [Hf | Hb].
    + rewrite (create_user_profile_farmer instance uid) by done.
      rewrite !exec_then_ret.
      apply (objects_create_twice (R := FarmerProfile.t)) with
        (row := FarmerProfile.new uid (User.username instance +:+ "'s Farm")
                  "small" (mkDecimal 100 (-2)) 1%N
                  (str_or (User.full_address instance) "Not specified")).
      all: try done.
      intros k row. simpl. by apply bool_decide_eq_true.
    + rewrite (create_user_profile_buyer instance uid) by done.
      rewrite !exec_then_ret.
      apply (objects_create_twice (R := BuyerProfile.t)) with
        (row := BuyerProfile.new uid); try done.
      intros k row. simpl. by apply bool_decide_eq_true.
  - intros instance db (uid & Hpk & [[Ht Hrows] | [Ht Hrows]]).
    + rewrite (create_user_profile_farmer instance uid) by done.
      apply rows_of_nonempty in Hrows as (k & r & Hr & Hu).
      set (obj := FarmerProfile.new _ _ _ _ _ _).
      pose proof (objects_create_taken (R := FarmerProfile.t) obj _ db eq_refl
                    (farmer_prep _ _ _ _ _)) as Htaken.
      rewrite bind_run, Htaken; [done |].
      exists k, r. split; [done |]. simpl. by apply bool_decide_eq_true.
    + rewrite (create_user_profile_buyer instance uid) by done.
      apply rows_of_nonempty in Hrows as (k & r & Hr & Hu).
      pose proof (objects_create_taken (R := BuyerProfile.t)
                    (BuyerProfile.new uid) _ db eq_refl (buyer_prep _))
        as Htaken.
      rewrite bind_run, Htaken; [done |].
      exists k, r. split; [done |]. simpl. by apply bool_decide_eq_true.
Qed.

(** ** The farm address of a provisioned farmer *)

Lemma created_farmer_row (instance : User.t) (uid : nat) (db : DB) (k : nat)
    (profile : FarmerProfile.t) :
  User.pk instance = Some uid →
  User.user_type instance = "farmer" →
  farmer_profiles db !! k = None →
  farmer_profiles (exec (create_user_profile instance true) db) !! k
    = Some profile →
  profile =
    FarmerProfile.set_pk k
      (FarmerProfile.new uid (User.username instance +:+ "'s Farm") "small"
         (mkDecimal 100 (-2)) 1%N
         (str_or (User.full_address instance) "Not specified")).
Proof.
  intros Hpk Ht Hold Hnew.
  rewrite (create_user_profile_farmer instance uid) in Hnew by done.
  rewrite exec_then_ret in Hnew. unfold exec in Hnew.
  set (obj := FarmerProfile.new _ _ _ _ _ _) in Hnew.
  pose proof (objects_create_run (R := FarmerProfile.t) obj _ db eq_refl
                (farmer_prep _ _ _ _ _)) as Hrun.
  rewrite Hrun in Hnew. clear Hrun. simpl in Hnew.
  destruct (unique_violation _ _ _); simpl in Hnew; [congruence |].
  destruct (decide (k = fresh (dom (farmer_profiles db)))) as [-> | Hne].
  - rewrite lookup_insert_eq in Hnew. by simplify_eq.
  - rewrite lookup_insert_ne in Hnew by done. congruence.
Qed.

(** C9.  For a farmer account whose [country] is not empty the formatted
    address is not empty and is the [farm_address] of the profile row that
    provisioning creates; the placeholder ['Not specified'] is what an empty
    formatted address gives, and the formatted address is empty exactly when
    all six address components, [country] included, are empty; an account
    built with the declared defaults has [country = 'India'], which is then
    its formatted address.  Whatever the country, as soon as one component
    is not empty the [farm_address] is the formatted address: the fallback
    is taken only when every component is empty, so a [farm_address] that
    differs from the formatted address means that all six are empty. *)
Theorem farm_address_placeholder (instance : User.t) (uid : nat) (db : DB)
    (k : nat) (profile : FarmerProfile.t) :
  User.pk instance = Some uid →
  User.user_type instance = "farmer" →
  farmer_profiles db !! k = None →
  farmer_profiles (exec (create_user_profile instance true) db) !! k
    = Some profile →
  (User.country instance ≠ "" →
     User.full_address instance ≠ ""
     ∧ FarmerProfile.farm_address profile = User.full_address instance)
  ∧ (User.full_address instance = "" →
       FarmerProfile.farm_address profile = "Not specified")
  ∧ (User.full_address instance = ""
     ↔ User.address_line_1 instance = "" ∧ User.address_line_2 instance = ""
       ∧ User.city instance = "" ∧ User.state instance = ""
       ∧ User.postal_code instance = "" ∧ User.country instance = "")
  ∧ (∀ username user_type phone_number,
       User.country (User.new username user_type phone_number) = "India"
       ∧ User.full_address (User.new username user_type phone_number)
         = "India")
  ∧ (¬ (User.address_line_1 instance = "" ∧ User.address_line_2 instance = ""
        ∧ User.city instance = "" ∧ User.state instance = ""
        ∧ User.postal_code instance = "" ∧ User.country instance = "") →
     User.full_address instance ≠ ""
     ∧ FarmerProfile.farm_address profile = User.full_address instance)
  ∧ (FarmerProfile.farm_address profile ≠ User.full_address instance →
     FarmerProfile.farm_address profile = "Not specified"
     ∧ User.address_line_1 instance = "" ∧ User.address_line_2 instance = ""
     ∧ User.city instance = "" ∧ User.state instance = ""
     ∧ User.postal_code instance = "" ∧ User.country instance = "").
Proof.
  intros Hpk Ht Hold Hnew.
  rewrite (created_farmer_row instance uid db k profile) by done. simpl.
  split; [| split; [| split; [| split; [done |]]]].
  - intros Hc.
    assert (User.full_address instance ≠ "") as Hfull.
    { rewrite full_address_empty. tauto. }
    split; [done |]. by apply str_or_nonempty.
  - intros ->. apply str_or_empty.
  - apply full_address_empty.
  - split.
    + intros Hsome.
      assert (User.full_address instance ≠ "") as Hfull.
      { by rewrite full_address_empty. }
      split; [done |]. by apply str_or_nonempty.
    + intros Hdiff.
      destruct (decide (User.full_address instance = "")) as [Hempty | Hfull].
      * split; [rewrite Hempty; apply str_or_empty |].
        by apply full_address_empty.
      * destruct Hdiff. by apply str_or_nonempty.
Qed.

(** ** Re-saving the profile after an account save *)

(** C7.  Whatever the related-profile accessors and the profile's [save] do,
    raise included, [save_user_profile] returns normally to its caller. *)
Theorem save_user_profile_never_raises (orm : RelatedProfiles)
    (instance : User.t) (db : DB) :
  ∃ db', save_user_profile instance db = (db', inr tt).
Proof. unfold save_user_profile. apply try_except_returns. Qed.

Lemma related_missing {R} `{Model R} (user_of : R → nat) (instance : User.t)
    (uid : nat) (db : DB) :
  User.pk instance = Some uid →
  rows_of user_of uid (objects db) = ∅ →
  related user_of instance db = (db, inl RelatedObjectDoesNotExist).
Proof.
  intros Hpk Hnone. unfold related, objects_first. rewrite Hpk.
  replace (filter _ (objects db)) with (rows_of user_of uid (objects db)).
  - by rewrite Hnone, map_to_list_empty.
  - unfold rows_of. apply map_filter_ext. intros k r _. simpl.
    by rewrite bool_decide_eq_true.
Qed.

(** With Django's accessors, an account whose profile row is not there yet is
    skipped: nothing is written and nothing is raised. *)
Lemma save_user_profile_skips_missing (instance : User.t) (uid : nat) (db : DB) :
  User.pk instance = Some uid →
  rows_of FarmerProfile.user uid (farmer_profiles db) = ∅ →
  rows_of BuyerProfile.user uid (buyer_profiles db) = ∅ →
  save_user_profile instance db = (db, inr tt).
Proof.
  intros Hpk Hf Hb. unfold save_user_profile. run.
  pose proof (related_missing FarmerProfile.user instance uid db Hpk Hf) as Hrf.
  pose proof (related_missing BuyerProfile.user instance uid db Hpk Hb) as Hrb.
  destruct (decide (User.user_type instance = "farmer")).
  - rewrite Hrf. simpl.
    destruct (decide (User.user_type instance ∈ ["buyer"; "vendor"]));
      [by rewrite Hrb | done].
  - destruct (decide (User.user_type instance ∈ ["buyer"; "vendor"]));
      [by rewrite Hrb | done].
Qed.

(** ** Purchase statistics *)

Lemma truediv_nonzero (a b : Decimal) :
  coef b ≠ 0 → ∃ q, truediv a b = inr q.
Proof.
  intros Hb. unfold truediv.
  destruct (coef b =? 0) eqn:Hz; [apply Z.eqb_eq in Hz; done |].
  destruct (coef a =? 0); [eauto |].
  destruct (if 0 <=? _ then _ else _) as [q r].
  destruct (if r =? 0 then _ else _) as [c e]. eauto.
Qed.


(** The three assignments of [update_purchase_stats], before [self.save()]. *)
Lemma update_purchase_stats_run (amount : Decimal) (p : BuyerProfile.t) (db : DB) :
  ∃ average,
    truediv (add (BuyerProfile.total_spent p) amount)
            (of_int (Z.of_N (BuyerProfile.total_orders p + 1))) = inr average
    ∧ BuyerProfile_update_purchase_stats amount (p, db) =
        Model_save false
          (BuyerProfile.set_average_order_value average
             (BuyerProfile.set_total_spent (add (BuyerProfile.total_spent p) amount)
                (BuyerProfile.set_total_orders (BuyerProfile.total_orders p + 1) p)),
           db).
Proof.
  destruct (truediv_nonzero (add (BuyerProfile.total_spent p) amount)
              (of_int (Z.of_N (BuyerProfile.total_orders p + 1)))) as [q Hq].
  { simpl. lia. }
  exists q. split; [done |].
  unfold BuyerProfile_update_purchase_stats. run. by rewrite Hq.
Qed.


(** What a successful [Model.save] leaves in the buyer profile table. *)
Lemma BuyerProfile_save_row (force_insert : bool) (p p' : BuyerProfile.t)
    (db db' : DB) :
  Model_save force_insert (p, db) = ((p', db'), inr tt) →
  ∃ k row,
    BuyerProfile.pk p' = Some k
    ∧ buyer_profiles db' !! k = Some row
    ∧ BuyerProfile.total_orders row = BuyerProfile.total_orders p
    ∧ prep_decimal 12 2 (BuyerProfile.total_spent p)
        = inr (BuyerProfile.total_spent row)
    ∧ prep_decimal 10 2 (BuyerProfile.average_order_value p)
        = inr (BuyerProfile.average_order_value row).
Proof.
  unfold Model_save. simpl. intros Hrun.
  destruct (prep_decimal 12 2 (BuyerProfile.total_spent p)) as [e | spent];
    [by simplify_eq |].
  destruct (prep_decimal 10 2 (BuyerProfile.average_order_value p)) as [e | avg];
    [by simplify_eq |].
  destruct (BuyerProfile.pk p) as [k |] eqn:Hk.
  - destruct (_ && _); [by simplify_eq |].
    destruct (unique_violation _ _ _); simplify_eq.
    eexists k, _. simpl. rewrite lookup_insert_eq. by rewrite Hk.
  - destruct (unique_violation _ _ _); simplify_eq.
    eexists _, _. simpl. rewrite lookup_insert_eq. done.
Qed.













(** ** The phone number validator *)

Lemma ascii_digit_isdecimal (c : N) : ascii_digit c = true → re.isdecimal c = true.
Proof.
  unfold ascii_digit, re.isdecimal, re.Nd_ranges. simpl. intros ->. done.
Qed.

(** C10.  The validator accepts a ten-digit mobile number followed by a
    newline, with or without the [+91] prefix, although such a string is not
    one of the phone numbers the specification describes. *)
Theorem phone_regex_accepts_trailing_newline :
  phone_regex (str "9876543210" ++ [10%N]) = inr tt
  ∧ spec_phone_number (str "9876543210" ++ [10%N]) = false
  ∧ phone_regex (str "+919876543210" ++ [10%N]) = inr tt
  ∧ spec_phone_number (str "+919876543210" ++ [10%N]) = false.
Proof. vm_compute. done. Qed.

(** [\d] also takes the decimal digits of other scripts: a 9 followed by nine
    Arabic-Indic digits passes the validator. *)
Lemma phone_regex_accepts_other_scripts :
  phone_regex [57; 1640; 1639; 1638; 1637; 1636; 1635; 1634; 1633; 1632]%N
    = inr tt.
Proof. vm_compute. done. Qed.

(** The sample number of the validator's own message is rejected, and so is
    a fifteen-digit number. *)
Lemma phone_regex_rejects_message_example :
  phone_regex (str "+999999999") ≠ inr tt
  ∧ phone_regex (str "987654321012345") ≠ inr tt.
Proof. vm_compute. split; discriminate. Qed.

Ltac next_char H s x Hx :=
  destruct s as [| x s]; simpl in H; [discriminate H |];
  apply andb_true_iff in H as [Hx H].

Lemma at_end_spec (s : list N) : re.at_end s = true ↔ s = [] ∨ s = [10%N].
Proof.
  destruct s as [| c [| c' s]]; simpl.
  - split; [by left | done].
  - rewrite N.eqb_eq. split; [intros ->; by right | intros [? | [= ->]]; done].
  - split; [done | intros [? | ?]; done].
Qed.

Lemma mobile_pattern_matches (at_start : bool) (s : list N) :
  re.matches mobile_pattern at_start s (λ _ _, true) = true
  ↔ ∃ d ds nl,
      s = d :: ds ++ nl ∧ (54 ≤ d ≤ 57)%N ∧ length ds = 9%nat
      ∧ Forall (λ c, re.isdecimal c = true) ds ∧ (nl = [] ∨ nl = [10%N]).
Proof.
  split.
  - intros H. simpl in H.
    next_char H s d Hd.
    next_char H s x1 H1. next_char H s x2 H2. next_char H s x3 H3.
    next_char H s x4 H4. next_char H s x5 H5. next_char H s x6 H6.
    next_char H s x7 H7. next_char H s x8 H8. next_char H s x9 H9.
    exists d, [x1; x2; x3; x4; x5; x6; x7; x8; x9], s.
    apply andb_true_iff in Hd as [Hlo Hhi].
    apply N.leb_le in Hlo, Hhi.
    rewrite andb_true_r in H. apply at_end_spec in H.
    repeat split; try done.
    repeat (constructor; [done |]). constructor.
  - intros (d & ds & nl & -> & [Hlo Hhi] & Hlen & Hds & Hnl).
    do 10 (destruct ds as [| ? ds]; try discriminate Hlen).
    repeat match goal with
           | H : Forall _ (_ :: _) |- _ => apply Forall_cons in H as [? H]
           end.
    simpl. apply N.leb_le in Hlo, Hhi. rewrite Hlo, Hhi.
    repeat match goal with
           | H : re.isdecimal _ = true |- _ => rewrite H; clear H
           end.
    simpl. rewrite andb_true_r. by apply at_end_spec.
Qed.

Lemma search_from_not_at_start (s : list N) :
  re.search_from phone_pattern false s = false.
Proof. induction s as [| c s IH]; simpl; [done |]. by rewrite IH. Qed.

Lemma Lit_matches (c : N) (pre s : list N) (at_start : bool)
    (k : bool → list N → bool) :
  re.matches (re.Lit (c :: pre)) at_start s k
  = match removeprefix (c :: pre) s with
    | Some s' => k false s'
    | None => false
    end.
Proof.
  revert c s at_start. induction pre as [| c' pre IH]; intros c s at_start.
  - destruct s as [| x s]; simpl; [done |]. by destruct (x =? c)%N.
  - destruct s as [| x s]; [done |].
    change (re.matches (re.Lit (c :: c' :: pre)) at_start (x :: s) k)
      with ((x =? c)%N && re.matches (re.Lit (c' :: pre)) false s k).
    rewrite IH. simpl. by destruct (x =? c)%N.
Qed.

Lemma phone_pattern_search (s : list N) :
  re.search phone_pattern s
  = re.matches mobile_pattern true s (λ _ _, true)
    || match removeprefix (str "+91") s with
       | Some s' => re.matches mobile_pattern false s' (λ _ _, true)
       | None => false
       end.
Proof.
  unfold re.search.
  assert (re.search_from phone_pattern true s
          = re.matches phone_pattern true s (λ _ _, true)) as ->.
  { destruct s as [| c s]; simpl; [done |].
    rewrite search_from_not_at_start. by rewrite orb_false_r. }
  change (re.matches phone_pattern true s (λ _ _, true))
    with (re.matches (re.Lit (str "+91")) true s
            (λ b s', re.matches mobile_pattern b s' (λ _ _, true))
          || re.matches mobile_pattern true s (λ _ _, true)).
  rewrite orb_comm. f_equal. apply Lit_matches.
Qed.

Lemma removeprefix_Some (pre s s' : list N) :
  removeprefix pre s = Some s' ↔ s = pre ++ s'.
Proof.
  revert s. induction pre as [| c pre IH]; intros s; simpl.
  - split; [by intros [= ->] | by intros ->].
  - destruct s as [| x s]; [done |].
    destruct (N.eqb_spec x c) as [-> | Hne].
    + rewrite IH. split; [by intros -> | by intros [= ->]].
    + split; [done | by intros [= -> _]].
Qed.

Lemma phone_pattern_search_iff (s : list N) :
  re.search phone_pattern s = true ↔ accepted_phone_number s.
Proof.
  rewrite phone_pattern_search, orb_true_iff, mobile_pattern_matches.
  unfold accepted_phone_number. split.
  - intros [(d & ds & nl & -> & H) | H].
    + exists [], d, ds, nl. split; [done |]. split; [by left | done].
    + destruct (removeprefix (str "+91") s) as [s' |] eqn:Hpre; [| done].
      apply removeprefix_Some in Hpre as ->.
      apply mobile_pattern_matches in H as (d & ds & nl & -> & H).
      exists (str "+91"), d, ds, nl. split; [done |]. split; [by right | done].
  - intros (prefix & d & ds & nl & -> & [-> | ->] & H).
    + left. by exists d, ds, nl.
    + right.
      assert (removeprefix (str "+91") (str "+91" ++ d :: ds ++ nl)
              = Some (d :: ds ++ nl)) as -> by by apply removeprefix_Some.
      apply mobile_pattern_matches. by exists d, ds, nl.
Qed.

(** X16.  The validator accepts exactly the strings of
    [accepted_phone_number]: an optional [+91], one of the digits 6 to 9,
    nine characters that [str.isdecimal] takes for digits, and an optional
    final newline.  Every other string is refused. *)
Lemma phone_regex_accepts_iff (s : list N) :
  phone_regex s = inr tt ↔ accepted_phone_number s.
Proof.
  rewrite <- phone_pattern_search_iff. unfold phone_regex, RegexValidator.
  destruct (re.search phone_pattern s); split; done.
Qed.

(** Every number of the specified form passes the validator. *)
Lemma spec_phone_number_accepted (s : list N) :
  spec_phone_number s = true → phone_regex s = inr tt.
Proof.
  assert (Hmobile : ∀ t, ten_digit_mobile t = true →
            ∃ d ds, t = d :: ds ++ [] ∧ (54 ≤ d ≤ 57)%N ∧ length ds = 9%nat
                    ∧ Forall (λ c, re.isdecimal c = true) ds).
  { intros [| d rest] Ht; [done |]. simpl in Ht.
    apply andb_true_iff in Ht as [Ht Hall].
    apply andb_true_iff in Ht as [Ht Hlen].
    apply andb_true_iff in Ht as [Hlo Hhi].
    apply N.leb_le in Hlo, Hhi. apply bool_decide_eq_true in Hlen.
    exists d, rest. rewrite app_nil_r. repeat split; try done.
    apply Forall_forall. intros c Hc. apply ascii_digit_isdecimal.
    rewrite forallb_forall in Hall. apply Hall. by apply list_elem_of_In. }
  intros Hs. unfold phone_regex, RegexValidator.
  assert (re.search phone_pattern s = true) as ->; [| done].
  apply phone_pattern_search_iff.
  unfold spec_phone_number in Hs. apply orb_true_iff in Hs as [Hs | Hs].
  - apply Hmobile in Hs as (d & ds & -> & Hd & Hlen & Hds).
    exists [], d, ds, []. split; [done |]. split; [by left |].
    split; [done |]. split; [done |]. split; [done | by left].
  - destruct (removeprefix (str "+91") s) as [s' |] eqn:Hpre; [| done].
    apply removeprefix_Some in Hpre as ->.
    apply Hmobile in Hs as (d & ds & -> & Hd & Hlen & Hds).
    exists (str "+91"), d, ds, []. split; [done |]. split; [by right |].
    split; [done |]. split; [done |]. split; [done | by left].
Qed.

(** ** Saving an account: the whole chain *)

Lemma rows_of_singleton_lookup {R} (user_of : R → nat) (uid k : nat) (row : R)
    (tbl : gmap nat R) :
  rows_of user_of uid tbl = {[k := row]} →
  tbl !! k = Some row ∧ user_of row = uid
  ∧ ∀ k' r, tbl !! k' = Some r → user_of r = uid → k' = k.
Proof.
  intros Hrows.
  assert (Hk : rows_of user_of uid tbl !! k = Some row).
  { rewrite Hrows. apply lookup_singleton_eq. }
  unfold rows_of in Hk. apply map_lookup_filter_Some in Hk as [Hk Hu].
  split; [done |]. split; [done |].
  intros k' r Hr Hur.
  assert (Hk' : rows_of user_of uid tbl !! k' = Some r).
  { unfold rows_of. by apply map_lookup_filter_Some. }
  rewrite Hrows in Hk'. apply lookup_singleton_Some in Hk'. by destruct Hk'.
Qed.

Section resave.
Context {R : Type} `{Model R} (user_of : R → nat).
Hypothesis objects_set_id : ∀ (db : DB), set_objects (objects db) db = db.
Hypothesis conflict_same_user :
  ∀ a b : R, unique_conflict a b = true → user_of a = user_of b.

(** Saving again the one row an account has in a table changes nothing. *)
Lemma Model_save_again (uid k : nat) (row : R) (db : DB) :
  rows_of user_of uid (objects db) = {[k := row]} →
  db_prep row = inr row →
  pk_of row = Some k →
  Model_save false (row, db) = ((row, db), inr tt).
Proof.
  intros Hrows Hprep Hpk.
  apply rows_of_singleton_lookup in Hrows as (Hk & Hu & Honly).
  unfold Model_save. rewrite Hprep, Hpk. simpl.
  destruct (unique_violation k row (objects db)) eqn:Hv.
  - apply unique_violation_spec in Hv as (k' & r & Hr & Hne & Hc).
    apply conflict_same_user in Hc. destruct Hne.
    apply (Honly k' r Hr). congruence.
  - by rewrite insert_id, objects_set_id.
Qed.

Lemma related_found (instance : User.t) (uid k : nat) (row : R) (db : DB) :
  User.pk instance = Some uid →
  rows_of user_of uid (objects db) = {[k := row]} →
  related user_of instance db = (db, inr row).
Proof.
  intros Hpk Hrows. unfold related, objects_first. rewrite Hpk.
  replace (filter _ (objects db)) with (rows_of user_of uid (objects db)).
  - by rewrite Hrows, map_to_list_singleton.
  - unfold rows_of. apply map_filter_ext. intros i r _. simpl.
    by rewrite bool_decide_eq_true.
Qed.
End resave.

Arguments Model_save : simpl never.

Lemma save_user_profile_resaves_farmer (instance : User.t) (uid k : nat)
    (row : FarmerProfile.t) (db : DB) :
  User.pk instance = Some uid →
  User.user_type instance = "farmer" →
  rows_of FarmerProfile.user uid (farmer_profiles db) = {[k := row]} →
  db_prep row = inr row →
  FarmerProfile.pk row = Some k →
  save_user_profile instance db = (db, inr tt).
Proof.
  intros Hpk Ht Hrows Hprep Hk.
  pose proof (related_found FarmerProfile.user instance uid k row db Hpk Hrows)
    as Hrel.
  assert (Hsave : Model_save false (row, db) = ((row, db), inr tt)).
  { apply (Model_save_again FarmerProfile.user) with uid k; try done.
    - by intros [].
    - intros a b. simpl. by rewrite bool_decide_eq_true. }
  unfold save_user_profile. run.
  destruct (decide (User.user_type instance = "farmer")); [| done].
  rewrite Hrel. simpl. rewrite Hrel.
  unfold mbind, M_bind, call. by rewrite Hsave.
Qed.

Lemma save_user_profile_resaves_buyer (instance : User.t) (uid k : nat)
    (row : BuyerProfile.t) (db : DB) :
  User.pk instance = Some uid →
  User.user_type instance ∈ ["buyer"; "vendor"] →
  rows_of BuyerProfile.user uid (buyer_profiles db) = {[k := row]} →
  db_prep row = inr row →
  BuyerProfile.pk row = Some k →
  save_user_profile instance db = (db, inr tt).
Proof.
  intros Hpk Ht Hrows Hprep Hk.
  pose proof (related_found BuyerProfile.user instance uid k row db Hpk Hrows)
    as Hrel.
  assert (Hsave : Model_save false (row, db) = ((row, db), inr tt)).
  { apply (Model_save_again BuyerProfile.user) with uid k; try done.
    - by intros [].
    - intros a b. simpl. by rewrite bool_decide_eq_true. }
  unfold save_user_profile. run.
  destruct (decide (User.user_type instance = "farmer")) as [Hf | _].
  { rewrite Hf in Ht. by role_absurd Ht. }
  destruct (decide (User.user_type instance ∈ ["buyer"; "vendor"])); [| done].
  rewrite Hrel. simpl. rewrite Hrel.
  unfold mbind, M_bind, call. by rewrite Hsave.
Qed.

(** [super().save()] of an account that is not in the table yet, up to the
    sending of [post_save]. *)
Lemma User_save_insert (u : User.t) (db : DB) :
  save_accepted u db = true →
  save_key u db ∉ dom (users db) →
  ∃ instance,
    User.pk instance = Some (save_key u db)
    ∧ User.user_type instance = User.user_type u
    ∧ User.username instance = User.username u
    ∧ User.full_address instance = User.full_address u
    ∧ User_save (u, db) =
        (query (create_user_profile instance true);;
         query (save_user_profile instance))
          (instance,
           set_users (<[save_key u db := instance]> (users db)) db).
Proof.
  intros Hacc Hnew. unfold save_accepted, save_key in *. simpl in *.
  apply negb_true_iff in Hacc.
  unfold User_save, Model_save. run. simpl.
  destruct (User.pk u) as [k |] eqn:Hk; rewrite Hacc.
  - exists u. rewrite bool_decide_eq_true_2 by done. done.
  - by eexists (User.set_pk _ u).
Qed.

(** X6.  Creating a farmer account provisions its profile: in a database that
    respects the foreign keys, [User.save] of an account that is not stored
    yet returns normally and leaves exactly one farmer profile for it. *)
Lemma User_save_provisions_farmer (u : User.t) (db : DB) :
  referential_integrity db →
  save_accepted u db = true →
  save_key u db ∉ dom (users db) →
  User.user_type u = "farmer" →
  ∃ u' db' k profile,
    User_save (u, db) = ((u', db'), inr tt)
    ∧ User.pk u' = Some (save_key u db)
    ∧ users db' !! save_key u db = Some u'
    ∧ rows_of FarmerProfile.user (save_key u db) (farmer_profiles db')
      = {[k := profile]}
    ∧ FarmerProfile.farm_size profile = "small"
    ∧ FarmerProfile.farming_experience_years profile = 1%N
    ∧ buyer_profiles db' = buyer_profiles db.
Proof.
  intros [Hfk _] Hacc Hnew Ht.
  destruct (User_save_insert u db Hacc Hnew)
    as (instance & Hpk & Hti & _ & _ & ->).
  set (uid := save_key u db) in *.
  set (db1 := set_users (<[uid := instance]> (users db)) db).
  assert (Hnone : rows_of FarmerProfile.user uid (farmer_profiles db1) = ∅).
  { apply rows_of_empty. intros k r Hr Hu. apply Hnew. rewrite <- Hu.
    by apply (Hfk k r). }
  rewrite Ht in Hti.
  pose proof (create_user_profile_farmer_run instance uid db1 Hpk Hti Hnone)
    as Hcreate.
  cbv zeta in Hcreate.
  set (k := fresh (dom (farmer_profiles db1))) in *.
  set (row := FarmerProfile.set_pk k _) in *.
  set (db2 := set_farmer_profiles _ db1) in *.
  assert (Hrows : rows_of FarmerProfile.user uid (farmer_profiles db2)
                  = {[k := row]}).
  { simpl. by apply rows_of_insert_new. }
  pose proof (save_user_profile_resaves_farmer instance uid k row db2
                Hpk Hti Hrows eq_refl eq_refl) as Hresave.
  exists instance, db2, k, row.
  split.
  { unfold mbind, M_bind, query. cbn [fst snd]. rewrite Hcreate.
    cbn [fst snd]. by rewrite Hresave. }
  split; [done |]. split; [| done].
  simpl. apply lookup_insert_eq.
Qed.

(** X7.  Creating a buyer or vendor account provisions its profile: in a
    database that respects the foreign keys, [User.save] of an account that is
    not stored yet returns normally and leaves exactly one buyer profile for
    it, with the declared defaults, and no farmer profile is touched. *)
Lemma User_save_provisions_buyer (u : User.t) (db : DB) :
  referential_integrity db →
  save_accepted u db = true →
  save_key u db ∉ dom (users db) →
  User.user_type u ∈ ["buyer"; "vendor"] →
  ∃ u' db' k,
    User_save (u, db) = ((u', db'), inr tt)
    ∧ User.pk u' = Some (save_key u db)
    ∧ users db' !! save_key u db = Some u'
    ∧ rows_of BuyerProfile.user (save_key u db) (buyer_profiles db')
      = {[k := BuyerProfile.set_pk k (BuyerProfile.new (save_key u db))]}
    ∧ farmer_profiles db' = farmer_profiles db.
Proof.
  intros [_ Hfk] Hacc Hnew Ht.
  destruct (User_save_insert u db Hacc Hnew)
    as (instance & Hpk & Hti & _ & _ & ->).
  set (uid := save_key u db) in *.
  set (db1 := set_users (<[uid := instance]> (users db)) db).
  assert (Hnone : rows_of BuyerProfile.user uid (buyer_profiles db1) = ∅).
  { apply rows_of_empty. intros k r Hr Hu. apply Hnew. rewrite <- Hu.
    by apply (Hfk k r). }
  rewrite <- Hti in Ht.
  pose proof (create_user_profile_buyer_run instance uid db1 Hpk Ht Hnone)
    as Hcreate.
  cbv zeta in Hcreate.
  set (k := fresh (dom (buyer_profiles db1))) in *.
  set (row := BuyerProfile.set_pk k _) in *.
  set (db2 := set_buyer_profiles _ db1) in *.
  assert (Hrows : rows_of BuyerProfile.user uid (buyer_profiles db2)
                  = {[k := row]}).
  { simpl. by apply rows_of_insert_new. }
  pose proof (save_user_profile_resaves_buyer instance uid k row db2
                Hpk Ht Hrows eq_refl eq_refl) as Hresave.
  exists instance, db2, k.
  split.
  { unfold mbind, M_bind, query. cbn [fst snd]. rewrite Hcreate.
    cbn [fst snd]. by rewrite Hresave. }
  split; [done |]. split; [| done].
  simpl. apply lookup_insert_eq.
Qed.

(** ** The theorems at work on sample data *)

Lemma Address_save_default_exclusive_witness :
  Address.is_default office = true
  ∧ save_accepted office address_book = true
  ∧ ∃ k a' db',
      Address_save (office, address_book) = ((a', db'), inr tt)
      ∧ Address.pk a' = Some k
      ∧ ∀ k' r, addresses db' !! k' = Some r →
          Address.user r = Address.user office →
          Address.is_default r = true → k' = k.
Proof.
  split; [reflexivity |]. split; [vm_compute; reflexivity |].
  destruct (Address_save_default_exclusive office address_book)
    as (k & a' & db' & row & Hrun & Hk & _ & _ & _ & _ & _ & _ & Honly).
  - reflexivity.
  - vm_compute; reflexivity.
  - exists k, a', db'. split; [exact Hrun |]. split; [exact Hk | exact Honly].
Defined.

Lemma Address_save_not_default_frame_witness :
  Address.is_default farm = false
  ∧ addresses address_book !! 0%nat = Some home
  ∧ Address.pk farm ≠ Some 0%nat
  ∧ addresses (exec Address_save (farm, address_book)).2 !! 0%nat = Some home.
Proof.
  split; [reflexivity |]. split; [vm_compute; reflexivity |].
  split; [discriminate |].
  apply (Address_save_not_default_frame farm address_book).
  - reflexivity.
  - vm_compute; reflexivity.
  - discriminate.
Defined.

Lemma create_user_profile_farmer_exactly_one_witness :
  User.pk ravi = Some 1%nat
  ∧ User.user_type ravi = "farmer"
  ∧ rows_of FarmerProfile.user 1 (farmer_profiles empty_db) = ∅
  ∧ ∃ k profile,
      rows_of FarmerProfile.user 1
        (farmer_profiles (exec (create_user_profile ravi true) empty_db))
        = {[k := profile]}
      ∧ FarmerProfile.farm_size profile = "small"
      ∧ FarmerProfile.farming_experience_years profile = 1%N.
Proof.
  split; [reflexivity |]. split; [reflexivity |].
  split; [vm_compute; reflexivity |].
  destruct (create_user_profile_farmer_exactly_one ravi 1 empty_db)
    as (k & profile & _ & _ & Hone & _ & _ & Hsize & Hyears & _).
  - reflexivity.
  - reflexivity.
  - vm_compute; reflexivity.
  - exists k, profile. split; [exact Hone |]. split; [exact Hsize | exact Hyears].
Defined.

Lemma create_user_profile_buyer_exactly_one_witness :
  User.pk meera = Some 2%nat
  ∧ User.user_type meera ∈ ["buyer"; "vendor"]
  ∧ rows_of BuyerProfile.user 2 (buyer_profiles empty_db) = ∅
  ∧ ∃ k profile,
      rows_of BuyerProfile.user 2
        (buyer_profiles (exec (create_user_profile meera true) empty_db))
        = {[k := profile]}
      ∧ BuyerProfile.total_orders profile = 0%N.
Proof.
  assert (Hrole : User.user_type meera ∈ ["buyer"; "vendor"]).
  { apply list_elem_of_In. simpl. right. left. reflexivity. }
  split; [reflexivity |]. split; [exact Hrole |].
  split; [vm_compute; reflexivity |].
  destruct (proj1 create_user_profile_buyer_exactly_one meera 2%nat empty_db)
    as (k & profile & _ & _ & Hone & _ & Horders).
  - reflexivity.
  - exact Hrole.
  - vm_compute; reflexivity.
  - exists k, profile. split; [exact Hone | exact Horders].
Defined.

Lemma create_user_profile_idempotent_witness :
  has_role_profile ravi ravi_provisioned
  ∧ create_user_profile ravi true ravi_provisioned
    = (ravi_provisioned, inl IntegrityError).
Proof.
  assert (Hprofile : has_role_profile ravi ravi_provisioned).
  { exists 1%nat. split; [reflexivity |]. left. split; [reflexivity |].
    intros Hempty. apply (f_equal (λ m, m !! 0%nat)) in Hempty.
    vm_compute in Hempty. discriminate. }
  split; [exact Hprofile |].
  apply (proj2 (proj2 create_user_profile_idempotent) ravi ravi_provisioned).
  exact Hprofile.
Defined.



Lemma farm_address_placeholder_witness :
  User.pk sita = Some 3%nat
  ∧ User.user_type sita = "farmer"
  ∧ User.country sita = ""
  ∧ ∃ profile,
      farmer_profiles (exec (create_user_profile sita true) sita_db) !! 0%nat
        = Some profile
      ∧ User.full_address sita ≠ ""
      ∧ FarmerProfile.farm_address profile = User.full_address sita
      ∧ FarmerProfile.farm_address profile = "Tenali".
Proof.
  split; [reflexivity |]. split; [reflexivity |]. split; [reflexivity |].
  destruct (farmer_profiles (exec (create_user_profile sita true) sita_db)
              !! 0%nat) as [profile |] eqn:Hrow; [| vm_compute in Hrow; discriminate].
  exists profile. split; [reflexivity |].
  destruct (farm_address_placeholder sita 3 sita_db 0 profile)
    as (_ & _ & _ & _ & Hsome & _).
  - reflexivity.
  - reflexivity.
  - vm_compute; reflexivity.
  - exact Hrow.
  - destruct Hsome as [Hfull Hfarm].
    + intros (_ & _ & Hcity & _). discriminate Hcity.
    + split; [exact Hfull |]. split; [exact Hfarm |].
      rewrite Hfarm. vm_compute; reflexivity.
Defined.

(** * Further properties *)

(** ** What [Model.save] does to a table *)

Section save_cases.
Context {R : Type} `{Model R}.

(** [Model.save] either raises and leaves object and database as they were,
    or stores one row, under the object's key, that no other row conflicts
    with. *)
Lemma Model_save_cases (force_insert : bool) (self : R) (db : DB) :
  (∃ e, Model_save force_insert (self, db) = ((self, db), inl e)
        ∧ (db_prep self = inl e ∨ e = IntegrityError))
  ∨ (∃ row stored self',
       db_prep self = inr row
       ∧ unique_violation (save_key self db) row (objects db) = false
       ∧ ((pk_of self = Some (save_key self db) ∧ stored = row ∧ self' = self)
          ∨ (pk_of self = None ∧ stored = with_pk (save_key self db) row
             ∧ self' = with_pk (save_key self db) self))
       ∧ Model_save force_insert (self, db)
         = ((self', set_objects (<[save_key self db := stored]> (objects db)) db),
            inr tt)).
Proof.
  unfold Model_save, save_key.
  destruct (db_prep self) as [e | row] eqn:Hprep; [left; eauto |].
  destruct (pk_of self) as [k |] eqn:Hpk.
  - destruct (force_insert && _); [left; eauto |].
    destruct (unique_violation k row (objects db)) eqn:Hv; [left; eauto |].
    right. exists row, row, self. eauto 10.
  - destruct (unique_violation _ row (objects db)) eqn:Hv; [left; eauto |].
    right. eexists row, _, _. eauto 10.
Qed.

Hypothesis objects_set :
  ∀ (t : gmap nat R) (db : DB), objects (set_objects t db) = t.
Hypothesis conflict_sym : ∀ a b : R, unique_conflict a b = unique_conflict b a.
Hypothesis conflict_with_pk :
  ∀ (k : nat) (a b : R), unique_conflict (with_pk k a) b = unique_conflict a b.
Hypothesis prep_pk : ∀ a row : R, db_prep a = inr row → pk_of row = pk_of a.
Hypothesis pk_with_pk : ∀ (k : nat) (a : R), pk_of (with_pk k a) = Some k.

Lemma Model_save_unique_rows (force_insert : bool) (self : R) (db : DB) :
  unique_rows (objects db) →
  unique_rows (objects (exec (Model_save force_insert) (self, db)).2).
Proof.
  intros Huniq. unfold exec.
  destruct (Model_save_cases force_insert self db)
    as [(e & -> & _) | (row & stored & self' & Hprep & Hv & Hst & ->)]; [done |].
  simpl. rewrite objects_set.
  set (k := save_key self db) in *.
  assert (Hfree : ∀ k' r, objects db !! k' = Some r → k' ≠ k →
            unique_conflict stored r = false).
  { intros k' r Hr Hne. apply not_true_iff_false. intros Hc.
    apply not_true_iff_false in Hv. apply Hv.
    apply unique_violation_spec. exists k', r. split; [done |]. split; [done |].
    destruct Hst as [(_ & -> & _) | (_ & -> & _)]; [done |].
    by rewrite conflict_with_pk in Hc. }
  intros k1 k2 r1 r2 H1 H2 Hc.
  destruct (decide (k1 = k2)) as [| Hne]; [done |]. exfalso.
  destruct (decide (k1 = k)) as [-> | Hk1].
  - rewrite lookup_insert_eq in H1. rewrite lookup_insert_ne in H2 by done.
    simplify_eq. rewrite (Hfree k2 r2) in Hc; done.
  - rewrite lookup_insert_ne in H1 by done.
    destruct (decide (k2 = k)) as [-> | Hk2].
    + rewrite lookup_insert_eq in H2. simplify_eq.
      rewrite conflict_sym, (Hfree k1 r1) in Hc; done.
    + rewrite lookup_insert_ne in H2 by done.
      by apply Hne, (Huniq k1 k2 r1 r2).
Qed.

Lemma Model_save_keyed (force_insert : bool) (self : R) (db : DB) :
  keyed (objects db) →
  keyed (objects (exec (Model_save force_insert) (self, db)).2).
Proof.
  intros Hkeyed. unfold exec.
  destruct (Model_save_cases force_insert self db)
    as [(e & -> & _) | (row & stored & self' & Hprep & Hv & Hst & ->)]; [done |].
  simpl. rewrite objects_set. intros k r Hr.
  apply lookup_insert_Some in Hr as [[<- <-] | [_ Hr]]; [| by apply Hkeyed].
  destruct Hst as [(Hpk & -> & _) | (_ & -> & _)].
  - by rewrite (prep_pk self row).
  - apply pk_with_pk.
Qed.
End save_cases.

(** ** Addresses: constraints kept by [Address.save] *)

Lemma Address_conflict_sym (a b : Address.t) :
  unique_conflict a b = unique_conflict b a.
Proof.
  simpl. f_equal; apply bool_decide_ext; split; congruence.
Qed.

Lemma Address_prep_pk (a row : Address.t) :
  db_prep a = inr row → pk_of row = pk_of a.
Proof. by intros (Hpk & _)%Address_prep_columns. Qed.

(** The database on which [Address.save] calls [super().save()]. *)
Lemma Address_save_exec (a : Address.t) (db : DB) :
  exec Address_save (a, db) =
    exec (Model_save false)
      (a, if Address.is_default a
          then set_addresses (clear_default (Address.user a) <$> addresses db) db
          else db).
Proof. unfold exec. by rewrite Address_save_run. Qed.

Lemma clear_default_unique_rows (uid : nat) (tbl : gmap nat Address.t) :
  unique_rows tbl → unique_rows (clear_default uid <$> tbl).
Proof.
  intros Huniq k1 k2 r1 r2 H1 H2 Hc.
  rewrite lookup_fmap in H1, H2.
  destruct (tbl !! k1) as [s1 |] eqn:Hs1; [| done].
  destruct (tbl !! k2) as [s2 |] eqn:Hs2; [| done].
  injection H1 as <-. injection H2 as <-.
  apply (Huniq k1 k2 s1 s2); [done .. |].
  rewrite <- Hc. rewrite clear_default_conflict.
  rewrite (Address_conflict_sym _ s2), (Address_conflict_sym _ s2).
  by rewrite clear_default_conflict.
Qed.

Lemma clear_default_single_default (uid : nat) (tbl : gmap nat Address.t) :
  single_default tbl → single_default (clear_default uid <$> tbl).
Proof.
  intros Hsingle k1 k2 r1 r2 H1 H2 Hu Hd1 Hd2.
  rewrite lookup_fmap in H1, H2.
  destruct (tbl !! k1) as [s1 |] eqn:Hs1; [| done].
  destruct (tbl !! k2) as [s2 |] eqn:Hs2; [| done].
  injection H1 as <-. injection H2 as <-.
  rewrite !clear_default_user in Hu.
  apply (Hsingle k1 k2 s1 s2); try done.
  - unfold clear_default in Hd1. by destruct (_ && _) eqn:?; [| done].
  - unfold clear_default in Hd2. by destruct (_ && _) eqn:?; [| done].
Qed.

(** X1.  [Address.save] keeps the unique constraint on (user, title): if no
    two stored addresses of one account share a title before the call, none
    do after it, whether the call returned or raised. *)
Theorem Address_save_keeps_unique_titles (a : Address.t) (db : DB) :
  unique_rows (addresses db) →
  unique_rows (addresses (exec Address_save (a, db)).2).
Proof.
  intros Huniq. rewrite Address_save_exec.
  set (db0 := if Address.is_default a then _ else db).
  assert (Huniq0 : unique_rows (addresses db0)).
  { unfold db0. destruct (Address.is_default a); [| done].
    by apply clear_default_unique_rows. }
  exact (Model_save_unique_rows (R := Address.t) (λ _ _, eq_refl)
           Address_conflict_sym (λ _ _ _, eq_refl) false a db0 Huniq0).
Qed.

(** X2.  [Address.save] keeps the single-default invariant: if every account
    has at most one default address before the call, every account has at
    most one after it, whatever was saved and whether the call returned or
    raised. *)
Theorem Address_save_keeps_single_default (a : Address.t) (db : DB) :
  single_default (addresses db) →
  single_default (addresses (exec Address_save (a, db)).2).
Proof.
  intros Hsingle. rewrite Address_save_exec.
  set (db0 := if Address.is_default a then _ else db).
  assert (Hsingle0 : single_default (addresses db0)).
  { unfold db0. destruct (Address.is_default a); [| done].
    by apply clear_default_single_default. }
  assert (Hcleared : Address.is_default a = true →
            ∀ k r, addresses db0 !! k = Some r →
              Address.user r = Address.user a → Address.is_default r = false).
  { intros Hdef k r Hr Hu. unfold db0 in Hr. rewrite Hdef in Hr. simpl in Hr.
    rewrite lookup_fmap in Hr.
    destruct (addresses db !! k) as [s |]; simplify_eq/=.
    rewrite clear_default_user in Hu. by apply clear_default_not_default. }
  unfold exec.
  destruct (Model_save_cases false a db0)
    as [(e & -> & _) | (row & stored & self' & Hprep & Hv & Hst & ->)]; [done |].
  simpl. set (k := save_key a db0) in *.
  destruct (Address_prep_columns _ _ Hprep) as (_ & Hu & _ & Hd).
  assert (Hstored : Address.user stored = Address.user a
                    ∧ Address.is_default stored = Address.is_default a).
  { destruct Hst as [(_ & -> & _) | (_ & -> & _)]; by simpl. }
  destruct Hstored as [Hsu Hsd].
  intros k1 k2 r1 r2 H1 H2 Hur Hd1 Hd2.
  destruct (decide (k1 = k2)) as [| Hne]; [done |]. exfalso.
  destruct (decide (k1 = k)) as [-> | Hk1].
  - rewrite lookup_insert_eq in H1. rewrite lookup_insert_ne in H2 by done.
    simplify_eq. rewrite Hsd in Hd1.
    rewrite (Hcleared Hd1 k2 r2) in Hd2; [done .. |]. congruence.
  - rewrite lookup_insert_ne in H1 by done.
    destruct (decide (k2 = k)) as [-> | Hk2].
    + rewrite lookup_insert_eq in H2. simplify_eq. rewrite Hsd in Hd2.
      rewrite (Hcleared Hd2 k1 r1) in Hd1; [done .. |]. congruence.
    + rewrite lookup_insert_ne in H2 by done.
      by apply Hne, (Hsingle0 k1 k2 r1 r2).
Qed.

Ltac book_row H :=
  unfold address_book in H; simpl in H;
  repeat (apply lookup_insert_Some in H as [[<- <-] | [_ H]]);
  [.. | by rewrite lookup_empty in H].

Lemma address_book_unique_rows : unique_rows (addresses address_book).
Proof.
  intros k1 k2 r1 r2 H1 H2 Hc.
  book_row H1; book_row H2; first [reflexivity | vm_compute in Hc; discriminate].
Defined.

Lemma address_book_single_default : single_default (addresses address_book).
Proof.
  intros k1 k2 r1 r2 H1 H2 Hu Hd1 Hd2.
  book_row H1; book_row H2; first [reflexivity | discriminate].
Defined.

Lemma Address_save_keeps_unique_titles_witness :
  unique_rows (addresses address_book)
  ∧ unique_rows (addresses (exec Address_save (office, address_book)).2).
Proof.
  split; [exact address_book_unique_rows |].
  apply (Address_save_keeps_unique_titles office address_book).
  exact address_book_unique_rows.
Defined.

Lemma Address_save_keeps_single_default_witness :
  single_default (addresses address_book)
  ∧ single_default (addresses (exec Address_save (office, address_book)).2).
Proof.
  split; [exact address_book_single_default |].
  apply (Address_save_keeps_single_default office address_book).
  exact address_book_single_default.
Defined.

(** ** Addresses: refused saves and repeated saves *)

(** The database after the clearing query, on which the row is written. *)
Lemma Address_save_accepted_cleared (a : Address.t) (db : DB) :
  save_accepted a
    (set_addresses (clear_default (Address.user a) <$> addresses db) db)
  = save_accepted a db.
Proof.
  unfold save_accepted, save_key. simpl.
  destruct (prep_decimal_null 9 6 (Address.latitude a)) as [e | lat]; [done |].
  destruct (prep_decimal_null 9 6 (Address.longitude a)) as [e | lon]; [done |].
  rewrite dom_fmap_L. f_equal.
  apply unique_violation_fmap. intros r. apply clear_default_conflict.
Qed.

Lemma Model_save_refused {R} `{Model R} (force_insert : bool) (self : R) (db : DB) :
  save_accepted self db = false →
  ∃ e, Model_save force_insert (self, db) = ((self, db), inl e)
       ∧ (db_prep self = inl e ∨ e = IntegrityError).
Proof.
  intros Hacc.
  destruct (Model_save_cases force_insert self db)
    as [He | (row & stored & self' & Hprep & Hv & _)]; [done |].
  unfold save_accepted in Hacc. rewrite Hprep, Hv in Hacc. done.
Qed.

Lemma Address_save_refused_any (a : Address.t) (db : DB) :
  save_accepted a db = false →
  ∃ e,
    Address_save (a, db)
    = ((a, if Address.is_default a
           then set_addresses (clear_default (Address.user a) <$> addresses db) db
           else db),
       inl e)
    ∧ (db_prep a = inl e ∨ e = IntegrityError).
Proof.
  intros Hacc. rewrite Address_save_run.
  apply Model_save_refused.
  destruct (Address.is_default a); [| done].
  by rewrite Address_save_accepted_cleared.
Qed.

Lemma duplicate_title_not_accepted (a r : Address.t) (k : nat) (db : DB) :
  addresses db !! k = Some r →
  Address.pk a ≠ Some k →
  Address.user r = Address.user a →
  Address.title r = Address.title a →
  save_accepted a db = false.
Proof.
  intros Hr Hpk Hu Ht. unfold save_accepted.
  destruct (db_prep a) as [e | row] eqn:Hprep; [done |].
  apply negb_false_iff, unique_violation_spec. exists k, r.
  split; [done |]. split.
  - unfold save_key. simpl. destruct (Address.pk a) as [k' |]; [congruence |].
    intros ->. apply (is_fresh (dom (addresses db))), elem_of_dom. eauto.
  - rewrite (Address_conflict_prep a row r Hprep). simpl.
    by rewrite !bool_decide_eq_true_2.
Qed.

(** X3.  A second address with the title of another address of the same
    account is rejected: [Address.save] raises ([IntegrityError] when the
    coordinates fit their columns), stores no new row, and every stored row
    keeps its account and title. *)
Theorem Address_save_duplicate_title (a r : Address.t) (k : nat) (db : DB) :
  addresses db !! k = Some r →
  Address.pk a ≠ Some k →
  Address.user r = Address.user a →
  Address.title r = Address.title a →
  ∃ e a' db',
    Address_save (a, db) = ((a', db'), inl e)
    ∧ (db_prep a = inl e ∨ e = IntegrityError)
    ∧ dom (addresses db') = dom (addresses db)
    ∧ ∀ k' r', addresses db' !! k' = Some r' →
        ∃ r0, addresses db !! k' = Some r0
              ∧ Address.user r' = Address.user r0
              ∧ Address.title r' = Address.title r0.
Proof.
  intros Hr Hpk Hu Ht.
  destruct (Address_save_refused_any a db) as (e & Hrun & He).
  { by eapply duplicate_title_not_accepted. }
  eexists e, _, _. split; [exact Hrun |]. split; [exact He |].
  destruct (Address.is_default a); simpl.
  - split; [apply dom_fmap_L |]. intros k' r' Hr'.
    rewrite lookup_fmap in Hr'.
    destruct (addresses db !! k') as [r0 |]; [| done].
    injection Hr' as <-. exists r0. split; [done |].
    unfold clear_default. by destruct (_ && _).
  - split; [done |]. intros k' r' Hr'. by exists r'.
Qed.

(** X4.  Clearing and writing are not one transaction: when the save of an
    address with [is_default = True] is refused, [Address.save] raises after
    the flags were cleared, and the account is left without any default
    address; no row is added and the other accounts' addresses are as they
    were. *)
Theorem Address_save_refused_leaves_no_default (a : Address.t) (db : DB) :
  Address.is_default a = true →
  save_accepted a db = false →
  ∃ e a' db',
    Address_save (a, db) = ((a', db'), inl e)
    ∧ dom (addresses db') = dom (addresses db)
    ∧ (∀ k r, addresses db' !! k = Some r →
         Address.user r = Address.user a → Address.is_default r = false)
    ∧ (∀ k r, addresses db !! k = Some r →
         Address.user r ≠ Address.user a → addresses db' !! k = Some r).
Proof.
  intros Hdef Hacc.
  destruct (Address_save_refused_any a db Hacc) as (e & Hrun & _).
  rewrite Hdef in Hrun.
  eexists e, _, _. split; [exact Hrun |]. simpl.
  split; [apply dom_fmap_L |]. split.
  - intros k r Hr Hu. rewrite lookup_fmap in Hr.
    destruct (addresses db !! k) as [r0 |]; [| done].
    injection Hr as <-. rewrite clear_default_user in Hu.
    by apply clear_default_not_default.
  - intros k r Hr Hu. rewrite lookup_fmap, Hr. simpl. f_equal.
    rewrite clear_default_decide. by destruct (decide _).
Qed.

Lemma Address_save_duplicate_title_witness :
  addresses address_book !! 0%nat = Some home
  ∧ Address.pk second_home ≠ Some 0%nat
  ∧ Address.user home = Address.user second_home
  ∧ Address.title home = Address.title second_home
  ∧ ∃ a' db',
      Address_save (second_home, address_book) = ((a', db'), inl IntegrityError)
      ∧ dom (addresses db') = dom (addresses address_book).
Proof.
  split; [vm_compute; reflexivity |]. split; [discriminate |].
  split; [reflexivity |]. split; [reflexivity |].
  destruct (Address_save_duplicate_title second_home home 0 address_book)
    as (e & a' & db' & Hrun & He & Hdom & _).
  - vm_compute; reflexivity.
  - discriminate.
  - reflexivity.
  - reflexivity.
  - exists a', db'. split; [| exact Hdom].
    destruct He as [He | ->]; [| exact Hrun].
    vm_compute in He. discriminate.
Defined.

Lemma Address_save_refused_leaves_no_default_witness :
  Address.is_default second_home = true
  ∧ save_accepted second_home address_book = false
  ∧ ∃ e a' db',
      Address_save (second_home, address_book) = ((a', db'), inl e)
      ∧ ∀ k r, addresses db' !! k = Some r →
          Address.user r = Address.user second_home →
          Address.is_default r = false.
Proof.
  split; [reflexivity |]. split; [vm_compute; reflexivity |].
  destruct (Address_save_refused_leaves_no_default second_home address_book)
    as (e & a' & db' & Hrun & _ & Hnone & _).
  - reflexivity.
  - vm_compute; reflexivity.
  - exists e, a', db'. split; [exact Hrun | exact Hnone].
Defined.

Lemma clear_default_twice (uid : nat) (r : Address.t) :
  clear_default uid (clear_default uid r) = clear_default uid r.
Proof.
  rewrite !clear_default_decide.
  destruct (decide (Address.user r = uid)) as [Hu | Hu]; simpl.
  - by rewrite decide_True.
  - by rewrite decide_False.
Qed.

Lemma Address_prep_with_pk (k : nat) (a row : Address.t) :
  db_prep a = inr row → db_prep (with_pk k a) = inr (with_pk k row).
Proof.
  simpl.
  destruct (prep_decimal_null 9 6 (Address.latitude a)) as [e | lat]; [done |].
  destruct (prep_decimal_null 9 6 (Address.longitude a)) as [e | lon]; [done |].
  by intros [= <-].
Qed.

(** X5.  Saving an address again right after a save that went through
    changes none of the columns held by the records: the second
    [Address.save] returns, and object and rows are as the first one left
    them.  The timestamp [updated_at], which every save sets anew, is not
    among these columns. *)
Theorem Address_save_twice (a a' : Address.t) (db db' : DB) :
  Address_save (a, db) = ((a', db'), inr tt) →
  Address_save (a', db') = ((a', db'), inr tt).
Proof.
  rewrite Address_save_run.
  set (tbl0 := if Address.is_default a
               then clear_default (Address.user a) <$> addresses db
               else addresses db).
  assert (Hdb0 : (if Address.is_default a
                  then set_addresses
                         (clear_default (Address.user a) <$> addresses db) db
                  else db) = set_addresses tbl0 db).
  { unfold tbl0. destruct (Address.is_default a); [done | by destruct db]. }
  rewrite Hdb0. clear Hdb0. set (db0 := set_addresses tbl0 db).
  destruct (Model_save_cases false a db0)
    as [(e & -> & _) | (row & stored & self' & Hprep & Hv & Hst & ->)]; [done |].
  intros [= <- <-]. set (k := save_key a db0) in *.
  change (objects db0) with tbl0 in *.
  assert (Hfacts : Address.pk self' = Some k ∧ db_prep self' = inr stored
                   ∧ Address.user self' = Address.user a
                   ∧ Address.is_default self' = Address.is_default a
                   ∧ Address.is_default stored = Address.is_default a
                   ∧ Address.user stored = Address.user a
                   ∧ ∀ r, unique_conflict stored r = unique_conflict row r).
  { destruct (Address_prep_columns _ _ Hprep) as (_ & Hu & _ & Hd).
    destruct Hst as [(Hpk & -> & ->) | (Hpk & -> & ->)].
    - done.
    - split; [done |]. split; [by apply Address_prep_with_pk | done]. }
  destruct Hfacts as (Hpk' & Hprep' & Hu' & Hd' & Hsd & Hsu & Hconf).
  rewrite Address_save_run, Hu', Hd'. simpl.
  set (tbl1 := <[k := stored]> tbl0).
  set (db1 := if Address.is_default a then _ else _).
  assert (Htbl1 : ∀ k' r', addresses db1 !! k' = Some r' → k' ≠ k →
            ∃ r0, tbl0 !! k' = Some r0
                  ∧ unique_conflict stored r' = unique_conflict stored r0).
  { intros k' r' Hr' Hne. unfold db1 in Hr'.
    destruct (Address.is_default a); simpl in Hr'.
    - rewrite lookup_fmap in Hr'. unfold tbl1 in Hr'.
      rewrite lookup_insert_ne in Hr' by done.
      destruct (tbl0 !! k') as [r0 |]; [| done].
      injection Hr' as <-. exists r0. split; [done |].
      apply clear_default_conflict.
    - unfold tbl1 in Hr'. rewrite lookup_insert_ne in Hr' by done.
      by exists r'. }
  assert (Hinsert : set_addresses (<[k := stored]> (addresses db1)) db1
                    = set_addresses tbl1 db0).
  { unfold db1, db0, set_addresses.
    destruct (Address.is_default a) eqn:Hdef; simpl; f_equal.
    - unfold tbl1. rewrite fmap_insert, insert_insert_eq. f_equal.
      unfold tbl0. rewrite <- map_fmap_compose.
      apply map_fmap_ext. intros i r _. apply clear_default_twice.
    - unfold tbl1. apply insert_insert_eq. }
  unfold Model_save. rewrite Hprep'.
  change (pk_of self') with (Address.pk self'). rewrite Hpk'. simpl.
  destruct (unique_violation k stored (addresses db1)) eqn:Hv'.
  - apply unique_violation_spec in Hv' as (k' & r' & Hr' & Hne & Hc).
    destruct (Htbl1 k' r' Hr' Hne) as (r0 & Hr0 & Heq).
    apply not_true_iff_false in Hv. destruct Hv.
    apply unique_violation_spec. exists k', r0.
    split; [done |]. split; [done |]. by rewrite <- Hconf, <- Heq.
  - by rewrite Hinsert.
Qed.

Lemma Address_save_twice_witness :
  ∃ a' db',
    Address_save (office, address_book) = ((a', db'), inr tt)
    ∧ Address_save (a', db') = ((a', db'), inr tt).
Proof.
  destruct (Address_save (office, address_book)) as [[a' db'] r] eqn:Hrun.
  assert (Hr : r = inr tt).
  { apply (f_equal snd) in Hrun. vm_compute in Hrun. symmetry. exact Hrun. }
  subst r. exists a', db'. split; [reflexivity |].
  apply (Address_save_twice office a' address_book db'). exact Hrun.
Defined.

(** ** Saving an account: roles, refusals and constraints *)

Lemma User_conflict_sym (a b : User.t) :
  unique_conflict a b = unique_conflict b a.
Proof.
  simpl. f_equal; apply bool_decide_ext; split; congruence.
Qed.

Lemma save_user_profile_other_role (instance : User.t) (db : DB) :
  User.user_type instance ∉ ["farmer"; "buyer"; "vendor"] →
  save_user_profile instance db = (db, inr tt).
Proof.
  intros Ht. unfold save_user_profile. run.
  destruct (decide (User.user_type instance = "farmer")) as [Hf | _].
  { destruct Ht. rewrite Hf. by left. }
  destruct (decide (User.user_type instance ∈ ["buyer"; "vendor"])) as [Hb | _];
    [| done].
  destruct Ht. by right.
Qed.

(** X8.  Creating an account whose role tag is none of ['farmer'], ['buyer']
    and ['vendor'] (['admin'], or any other text) stores the account and
    nothing else: no profile row is created and no address is touched. *)
Theorem User_save_other_role (u : User.t) (db : DB) :
  save_accepted u db = true →
  save_key u db ∉ dom (users db) →
  User.user_type u ∉ ["farmer"; "buyer"; "vendor"] →
  ∃ u',
    User_save (u, db)
    = ((u', set_users (<[save_key u db := u']> (users db)) db), inr tt)
    ∧ User.pk u' = Some (save_key u db)
    ∧ User.username u' = User.username u
    ∧ User.user_type u' = User.user_type u.
Proof.
  intros Hacc Hnew Ht.
  destruct (User_save_insert u db Hacc Hnew)
    as (instance & Hpk & Hti & Hn & _ & ->).
  exists instance. split; [| done].
  rewrite <- Hti in Ht.
  unfold mbind, M_bind, query. cbn [fst snd].
  rewrite create_user_profile_other by done. cbn [fst snd].
  by rewrite save_user_profile_other_role.
Qed.

Lemma User_save_other_role_witness :
  save_accepted root_admin ravi_db = true
  ∧ (save_key root_admin ravi_db ∉ dom (users ravi_db))
  ∧ (User.user_type root_admin ∉ ["farmer"; "buyer"; "vendor"])
  ∧ ∃ u',
      User_save (root_admin, ravi_db)
      = ((u', set_users (<[save_key root_admin ravi_db := u']> (users ravi_db))
                ravi_db), inr tt).
Proof.
  assert (Hrole : User.user_type root_admin ∉ ["farmer"; "buyer"; "vendor"]).
  { intros H. by role_absurd H. }
  assert (Hnew : save_key root_admin ravi_db ∉ dom (users ravi_db)).
  { apply is_fresh. }
  split; [vm_compute; reflexivity |]. split; [exact Hnew |].
  split; [exact Hrole |].
  destruct (User_save_other_role root_admin ravi_db) as (u' & Hrun & _).
  - vm_compute; reflexivity.
  - exact Hnew.
  - exact Hrole.
  - exists u'. exact Hrun.
Defined.

(** X9.  An account whose phone number or username is the one of another
    stored account is rejected: [User.save] raises [IntegrityError] before
    any signal is sent, and the database is left exactly as it was. *)
Theorem User_save_duplicate (u r : User.t) (k : nat) (db : DB) :
  users db !! k = Some r →
  User.pk u ≠ Some k →
  User.phone_number r = User.phone_number u
  ∨ User.username r = User.username u →
  User_save (u, db) = ((u, db), inl IntegrityError).
Proof.
  intros Hr Hpk Hsame.
  assert (Hacc : save_accepted u db = false).
  { unfold save_accepted. simpl. apply negb_false_iff, unique_violation_spec.
    exists k, r. split; [done |]. split.
    - unfold save_key. simpl. destruct (User.pk u) as [k' |]; [congruence |].
      intros ->. apply (is_fresh (dom (users db))), elem_of_dom. eauto.
    - simpl. apply orb_true_iff.
      destruct Hsame as [Hp | Hn]; [right | left];
        by apply bool_decide_eq_true. }
  destruct (Model_save_refused false u db Hacc) as (e & Hrun & He).
  destruct He as [He | ->]; [done |].
  unfold User_save. run. by rewrite Hrun.
Qed.

Lemma User_save_duplicate_witness :
  users ravi_db !! 1%nat = Some ravi
  ∧ User.pk ravi_again ≠ Some 1%nat
  ∧ (User.phone_number ravi = User.phone_number ravi_again
     ∨ User.username ravi = User.username ravi_again)
  ∧ User_save (ravi_again, ravi_db) = ((ravi_again, ravi_db), inl IntegrityError).
Proof.
  split; [vm_compute; reflexivity |]. split; [discriminate |].
  split; [left; reflexivity |].
  apply (User_save_duplicate ravi_again ravi 1 ravi_db).
  - vm_compute; reflexivity.
  - discriminate.
  - left; reflexivity.
Defined.

Lemma no_profiles_referential_integrity (db : DB) :
  farmer_profiles db = ∅ → buyer_profiles db = ∅ → referential_integrity db.
Proof.
  intros Hf Hb. split; intros k r Hr.
  - rewrite Hf in Hr. by apply lookup_empty_Some in Hr.
  - rewrite Hb in Hr. by apply lookup_empty_Some in Hr.
Defined.

Lemma User_save_provisions_farmer_witness :
  referential_integrity ravi_db
  ∧ save_accepted lakshmi ravi_db = true
  ∧ (save_key lakshmi ravi_db ∉ dom (users ravi_db))
  ∧ User.user_type lakshmi = "farmer"
  ∧ ∃ u' db' k profile,
      User_save (lakshmi, ravi_db) = ((u', db'), inr tt)
      ∧ rows_of FarmerProfile.user (save_key lakshmi ravi_db)
          (farmer_profiles db') = {[k := profile]}.
Proof.
  assert (Hfk : referential_integrity ravi_db).
  { by apply no_profiles_referential_integrity. }
  assert (Hnew : save_key lakshmi ravi_db ∉ dom (users ravi_db)).
  { apply is_fresh. }
  split; [exact Hfk |]. split; [vm_compute; reflexivity |].
  split; [exact Hnew |]. split; [reflexivity |].
  destruct (User_save_provisions_farmer lakshmi ravi_db)
    as (u' & db' & k & profile & Hrun & _ & _ & Hrows & _).
  - exact Hfk.
  - vm_compute; reflexivity.
  - exact Hnew.
  - reflexivity.
  - exists u', db', k, profile. split; [exact Hrun | exact Hrows].
Defined.

Lemma User_save_provisions_buyer_witness :
  referential_integrity ravi_db
  ∧ save_accepted arun ravi_db = true
  ∧ (save_key arun ravi_db ∉ dom (users ravi_db))
  ∧ (User.user_type arun ∈ ["buyer"; "vendor"])
  ∧ ∃ u' db' k,
      User_save (arun, ravi_db) = ((u', db'), inr tt)
      ∧ rows_of BuyerProfile.user (save_key arun ravi_db)
          (buyer_profiles db')
        = {[k := BuyerProfile.set_pk k (BuyerProfile.new (save_key arun ravi_db))]}.
Proof.
  assert (Hfk : referential_integrity ravi_db).
  { by apply no_profiles_referential_integrity. }
  assert (Hnew : save_key arun ravi_db ∉ dom (users ravi_db)).
  { apply is_fresh. }
  assert (Hrole : User.user_type arun ∈ ["buyer"; "vendor"]).
  { by left. }
  split; [exact Hfk |]. split; [vm_compute; reflexivity |].
  split; [exact Hnew |]. split; [exact Hrole |].
  destruct (User_save_provisions_buyer arun ravi_db)
    as (u' & db' & k & Hrun & _ & _ & Hrows & _).
  - exact Hfk.
  - vm_compute; reflexivity.
  - exact Hnew.
  - exact Hrole.
  - exists u', db', k. split; [exact Hrun | exact Hrows].
Defined.

(** [super().save()] of an account that is in the table already, up to the
    sending of [post_save]. *)
Lemma User_save_update (u : User.t) (k : nat) (db : DB) :
  User.pk u = Some k →
  k ∈ dom (users db) →
  save_accepted u db = true →
  User_save (u, db) =
    (query (create_user_profile u false);; query (save_user_profile u))
      (u, set_users (<[k := u]> (users db)) db).
Proof.
  intros Hk Hin Hacc. unfold save_accepted, save_key in *. simpl in *.
  rewrite Hk in Hacc. apply negb_true_iff in Hacc.
  unfold User_save, Model_save. run. rewrite Hk, Hacc.
  rewrite bool_decide_eq_false_2; [done |]. by intros [].
Qed.

(** X10.  Profiles are provisioned at creation only.  Saving an account that
    is stored already and has no profile row, whatever its role tag (one
    that was changed to ['farmer'] or ['buyer'] included), writes the
    account row and creates no profile. *)
Theorem User_save_existing_without_profile (u : User.t) (k : nat) (db : DB) :
  User.pk u = Some k →
  k ∈ dom (users db) →
  save_accepted u db = true →
  rows_of FarmerProfile.user k (farmer_profiles db) = ∅ →
  rows_of BuyerProfile.user k (buyer_profiles db) = ∅ →
  User_save (u, db) = ((u, set_users (<[k := u]> (users db)) db), inr tt).
Proof.
  intros Hk Hin Hacc Hf Hb.
  rewrite (User_save_update u k db Hk Hin Hacc).
  unfold mbind, M_bind, query, create_user_profile. cbn [fst snd].
  unfold mret, M_ret. cbn [fst snd].
  by rewrite (save_user_profile_skips_missing u k
               (set_users (<[k := u]> (users db)) db) Hk Hf Hb).
Qed.

Lemma User_save_existing_without_profile_witness :
  User.pk ravi_buyer = Some 1%nat
  ∧ (1%nat ∈ dom (users ravi_db))
  ∧ save_accepted ravi_buyer ravi_db = true
  ∧ rows_of FarmerProfile.user 1%nat (farmer_profiles ravi_db) = ∅
  ∧ rows_of BuyerProfile.user 1%nat (buyer_profiles ravi_db) = ∅
  ∧ User_save (ravi_buyer, ravi_db)
    = ((ravi_buyer, set_users (<[1%nat := ravi_buyer]> (users ravi_db)) ravi_db),
       inr tt).
Proof.
  assert (Hin : 1%nat ∈ dom (users ravi_db)).
  { apply elem_of_dom. exists ravi. vm_compute; reflexivity. }
  split; [reflexivity |]. split; [exact Hin |].
  split; [vm_compute; reflexivity |].
  split; [vm_compute; reflexivity |]. split; [vm_compute; reflexivity |].
  apply (User_save_existing_without_profile ravi_buyer 1 ravi_db).
  - reflexivity.
  - exact Hin.
  - vm_compute; reflexivity.
  - vm_compute; reflexivity.
  - vm_compute; reflexivity.
Defined.

(** ** What the provisioning receiver can do to the database *)

(** The outcomes of [create_user_profile]: nothing to do, an exception raised
    with nothing written, or one new row in the profile table of the
    account's role. *)
Lemma create_user_profile_cases (instance : User.t) (created : bool) (db : DB) :
  (create_user_profile instance created db = (db, inr tt)
   ∧ (created = false
      ∨ User.user_type instance ∉ ["farmer"; "buyer"; "vendor"]))
  ∨ (∃ e, create_user_profile instance created db = (db, inl e)
          ∧ created = true
          ∧ User.user_type instance ∈ ["farmer"; "buyer"; "vendor"]
          ∧ ((e = ValueError ∧ User.pk instance = None)
             ∨ (e = IntegrityError ∧ User.pk instance ≠ None
                ∧ has_role_profile instance db)))
  ∨ (∃ uid k row,
       created = true
       ∧ User.user_type instance = "farmer"
       ∧ User.pk instance = Some uid
       ∧ (k ∉ dom (farmer_profiles db))
       ∧ FarmerProfile.pk row = Some k
       ∧ FarmerProfile.user row = uid
       ∧ rows_of FarmerProfile.user uid (farmer_profiles db) = ∅
       ∧ create_user_profile instance created db
         = (set_farmer_profiles (<[k := row]> (farmer_profiles db)) db, inr tt))
  ∨ (∃ uid k row,
       created = true
       ∧ User.user_type instance ∈ ["buyer"; "vendor"]
       ∧ User.pk instance = Some uid
       ∧ (k ∉ dom (buyer_profiles db))
       ∧ BuyerProfile.pk row = Some k
       ∧ BuyerProfile.user row = uid
       ∧ rows_of BuyerProfile.user uid (buyer_profiles db) = ∅
       ∧ create_user_profile instance created db
         = (set_buyer_profiles (<[k := row]> (buyer_profiles db)) db, inr tt)).
Proof.
  destruct created; [| left; split; [done | by left]].
  destruct (decide (User.user_type instance = "farmer")) as [Hf | Hnf].
  - assert (Hrole : User.user_type instance ∈ ["farmer"; "buyer"; "vendor"]).
    { rewrite Hf. by left. }
    destruct (User.pk instance) as [uid |] eqn:Hpk.
    + rewrite (create_user_profile_farmer instance uid Hf Hpk).
      set (obj := FarmerProfile.new _ _ _ _ _ _).
      pose proof (objects_create_run (R := FarmerProfile.t) obj _ db
                    eq_refl (farmer_prep _ _ _ _ _)) as Hrun.
      cbv zeta in Hrun. rewrite bind_run, Hrun.
      destruct (unique_violation _ _ _) eqn:Hv.
      * right; left. exists IntegrityError. split; [done |].
        split; [done |]. split; [done |]. right. split; [done |].
        split; [done |].
        apply unique_violation_spec in Hv as (k' & r & Hr & _ & Hc).
        apply bool_decide_eq_true in Hc. simpl in Hc.
        exists uid. split; [done |]. left. split; [done |].
        intros Hnone. rewrite rows_of_empty in Hnone. by apply (Hnone k' r).
      * right; right; left.
        exists uid, (fresh (dom (farmer_profiles db))),
          (FarmerProfile.set_pk (fresh (dom (farmer_profiles db)))
             (FarmerProfile.new uid (User.username instance +:+ "'s Farm")
                "small" (mkDecimal 100 (-2)) 1%N
                (str_or (User.full_address instance) "Not specified"))).
        split; [done |]. split; [done |]. split; [done |].
        split; [apply is_fresh |]. split; [reflexivity |].
        split; [reflexivity |]. split; [| reflexivity].
        apply rows_of_empty. intros k' r Hr Hu.
        apply not_true_iff_false in Hv. apply Hv.
        apply unique_violation_spec. exists k', r. split; [done |].
        split.
        -- intros ->. apply (is_fresh (dom (farmer_profiles db))).
           apply elem_of_dom. eauto.
        -- apply bool_decide_eq_true. by simpl.
    + right; left. exists ValueError. unfold create_user_profile.
      rewrite Hpk. destruct (decide _); [| done].
      split; [done |]. split; [done |]. split; [done |]. by left.
  - destruct (decide (User.user_type instance ∈ ["buyer"; "vendor"]))
      as [Hb | Hnb].
    + assert (Hrole : User.user_type instance ∈ ["farmer"; "buyer"; "vendor"]).
      { by right. }
      destruct (User.pk instance) as [uid |] eqn:Hpk.
      * rewrite (create_user_profile_buyer instance uid Hb Hpk).
        pose proof (objects_create_run (R := BuyerProfile.t)
                      (BuyerProfile.new uid) _ db eq_refl (buyer_prep uid))
          as Hrun.
        cbv zeta in Hrun. rewrite bind_run, Hrun.
        destruct (unique_violation _ _ _) eqn:Hv.
        -- right; left. exists IntegrityError. split; [done |].
           split; [done |]. split; [done |]. right. split; [done |].
           split; [done |].
           apply unique_violation_spec in Hv as (k' & r & Hr & _ & Hc).
           apply bool_decide_eq_true in Hc. simpl in Hc.
           exists uid. split; [done |]. right. split; [done |].
           intros Hnone. rewrite rows_of_empty in Hnone. by apply (Hnone k' r).
        -- right; right; right.
           exists uid, (fresh (dom (buyer_profiles db))),
             (BuyerProfile.set_pk (fresh (dom (buyer_profiles db)))
                (BuyerProfile.new uid)).
           split; [done |]. split; [done |]. split; [done |].
           split; [apply is_fresh |]. split; [reflexivity |].
           split; [reflexivity |]. split; [| reflexivity].
           apply rows_of_empty. intros k' r Hr Hu.
           apply not_true_iff_false in Hv. apply Hv.
           apply unique_violation_spec. exists k', r. split; [done |].
           split.
           ++ intros ->. apply (is_fresh (dom (buyer_profiles db))).
              apply elem_of_dom. eauto.
           ++ apply bool_decide_eq_true. by simpl.
      * right; left. exists ValueError. unfold create_user_profile.
        rewrite Hpk. destruct (decide _); [done |].
        destruct (decide _); [| done].
        split; [done |]. split; [done |]. split; [done |]. by left.
    + left. split; [| right].
      * unfold create_user_profile.
        destruct (decide _); [done |]. by destruct (decide _).
      * intros Hin. apply elem_of_cons in Hin as [? | ?]; done.
Qed.

(** X11.  [create_user_profile] never touches the account table or the
    address table, and it never changes or removes a profile row that is
    stored: all it can do to the database is add rows to the profile
    tables. *)
Theorem create_user_profile_frame (instance : User.t) (created : bool) (db : DB) :
  users (exec (create_user_profile instance created) db) = users db
  ∧ addresses (exec (create_user_profile instance created) db) = addresses db
  ∧ farmer_profiles db
    ⊆ farmer_profiles (exec (create_user_profile instance created) db)
  ∧ buyer_profiles db
    ⊆ buyer_profiles (exec (create_user_profile instance created) db).
Proof.
  unfold exec.
  destruct (create_user_profile_cases instance created db)
    as [[-> _] | [(e & -> & _)
       | [(uid & k & row & _ & _ & _ & Hk & _ & _ & _ & ->)
         | (uid & k & row & _ & _ & _ & Hk & _ & _ & _ & ->)]]];
    simpl; repeat split; try done.
  - apply insert_subseteq. by apply not_elem_of_dom.
  - apply insert_subseteq. by apply not_elem_of_dom.
Qed.

(** X12.  The role tag decides which profile table [create_user_profile]
    writes to: the farmer table only on the creation of an account for which
    [is_farmer] holds, the buyer table only on the creation of one for which
    [is_buyer] or [is_vendor] holds, and never both. *)
Theorem create_user_profile_by_role (instance : User.t) (created : bool)
    (db : DB) :
  (farmer_profiles (exec (create_user_profile instance created) db)
     ≠ farmer_profiles db →
   created = true ∧ User.is_farmer instance = true)
  ∧ (buyer_profiles (exec (create_user_profile instance created) db)
       ≠ buyer_profiles db →
     created = true
     ∧ User.is_buyer instance || User.is_vendor instance = true)
  ∧ (farmer_profiles (exec (create_user_profile instance created) db)
       = farmer_profiles db
     ∨ buyer_profiles (exec (create_user_profile instance created) db)
       = buyer_profiles db).
Proof.
  unfold exec.
  destruct (create_user_profile_cases instance created db)
    as [[-> _] | [(e & -> & _)
       | [(uid & k & row & -> & Ht & _ & _ & _ & _ & _ & ->)
         | (uid & k & row & -> & Ht & _ & _ & _ & _ & _ & ->)]]];
    simpl; (split; [| split]); try done; try (by left); try (by right).
  - intros _. split; [done |]. by apply bool_decide_eq_true.
  - intros _. split; [done |]. unfold User.is_buyer, User.is_vendor.
    apply elem_of_cons in Ht as [-> | Ht]; [done |].
    apply list_elem_of_singleton in Ht as ->. done.
Qed.

(** X13.  For an account that has no primary key yet, or whose row is
    stored, as it is when [post_save] is sent, [create_user_profile] can fail
    in two ways only, and writes nothing when it does: with [ValueError],
    when the account has no primary key, and with [IntegrityError], when the
    account already has the profile of its role.  Both happen only on a
    creation event of an account whose role is ['farmer'], ['buyer'] or
    ['vendor']. *)
Theorem create_user_profile_failure (instance : User.t) (created : bool)
    (db db' : DB) (e : exn) :
  (∀ uid, User.pk instance = Some uid → uid ∈ dom (users db)) →
  create_user_profile instance created db = (db', inl e) →
  db' = db
  ∧ created = true
  ∧ User.user_type instance ∈ ["farmer"; "buyer"; "vendor"]
  ∧ ((e = ValueError ∧ User.pk instance = None)
     ∨ (e = IntegrityError ∧ has_role_profile instance db)).
Proof.
  intros _ Hrun.
  destruct (create_user_profile_cases instance created db)
    as [[Hc _] | [(e' & Hc & Hcr & Hrole & He)
       | [(uid & k & row & _ & _ & _ & _ & _ & _ & _ & Hc)
         | (uid & k & row & _ & _ & _ & _ & _ & _ & _ & Hc)]]];
    rewrite Hc in Hrun; try done.
  injection Hrun as <- <-. split; [done |]. split; [done |].
  split; [done |]. destruct He as [He | (He & _ & Hp)]; [by left | by right].
Qed.

Lemma create_user_profile_failure_witness :
  (∀ uid, User.pk ravi = Some uid → uid ∈ dom (users ravi_farm_db))
  ∧ create_user_profile ravi true ravi_farm_db
    = (ravi_farm_db, inl IntegrityError)
  ∧ has_role_profile ravi ravi_farm_db.
Proof.
  assert (Hstored : ∀ uid, User.pk ravi = Some uid →
                      uid ∈ dom (users ravi_farm_db)).
  { intros uid [= <-]. apply elem_of_dom. exists ravi. reflexivity. }
  assert (Hrun : create_user_profile ravi true ravi_farm_db
                 = (ravi_farm_db, inl IntegrityError)).
  { vm_compute; reflexivity. }
  split; [exact Hstored |]. split; [exact Hrun |].
  destruct (create_user_profile_failure ravi true ravi_farm_db
              ravi_farm_db IntegrityError Hstored Hrun)
    as (_ & _ & _ & [[He _] | [_ Hp]]).
  - discriminate He.
  - exact Hp.
Defined.

(** ** Purchase statistics: refused saves and exact totals *)



(** The number of digits of a coefficient, against its size. *)
Lemma ndigits_fuel_pos (fuel : nat) (n : Z) : 1 ≤ ndigits_fuel fuel n.
Proof.
  revert n. induction fuel as [| fuel IH]; intros n; simpl; [lia |].
  destruct (n <? 10); [lia |]. specialize (IH (n / 10)). lia.
Qed.

Lemma ndigits_fuel_upper (fuel : nat) (n k : Z) :
  1 ≤ k → n < 10 ^ k → ndigits_fuel fuel n ≤ k.
Proof.
  revert n k. induction fuel as [| fuel IH]; intros n k Hk Hn; simpl; [lia |].
  destruct (Z.ltb_spec n 10) as [| Hge]; [lia |].
  assert (Hk2 : 2 ≤ k).
  { destruct (decide (k = 1)) as [-> |]; [| lia]. simpl in Hn. lia. }
  assert (Hpow : 10 ^ k = 10 * 10 ^ (k - 1)).
  { rewrite <- Z.pow_succ_r by lia. f_equal. lia. }
  specialize (IH (n / 10) (k - 1) ltac:(lia)).
  assert (n / 10 < 10 ^ (k - 1)); [| lia].
  apply Z.div_lt_upper_bound; lia.
Qed.

Lemma ndigits_fuel_lower (fuel : nat) (n k : Z) :
  0 ≤ n → n < 2 ^ Z.of_nat fuel → 1 ≤ k → 10 ^ (k - 1) ≤ n →
  k ≤ ndigits_fuel fuel n.
Proof.
  revert n k. induction fuel as [| fuel IH]; intros n k H0 Hfuel Hk Hn.
  { simpl in Hfuel. assert (0 < 10 ^ (k - 1)) by (apply Z.pow_pos_nonneg; lia).
    lia. }
  simpl ndigits_fuel.
  destruct (Z.ltb_spec n 10) as [Hlt | Hge].
  - destruct (decide (k = 1)) as [| Hne]; [lia |]. exfalso.
    assert (10 ^ 1 ≤ 10 ^ (k - 1)) by (apply Z.pow_le_mono_r; lia).
    simpl in *. lia.
  - destruct (decide (k = 1)) as [-> | Hne].
    { pose proof (ndigits_fuel_pos fuel (n / 10)). lia. }
    assert (Hpow : 10 ^ (k - 1) = 10 * 10 ^ (k - 1 - 1)).
    { rewrite <- Z.pow_succ_r by lia. f_equal. lia. }
    assert (H2 : 2 ^ Z.of_nat (S fuel) = 2 * 2 ^ Z.of_nat fuel).
    { rewrite Nat2Z.inj_succ. apply Z.pow_succ_r. lia. }
    assert (0 < 2 ^ Z.of_nat fuel) by (apply Z.pow_pos_nonneg; lia).
    specialize (IH (n / 10) (k - 1)).
    assert (k - 1 ≤ ndigits_fuel fuel (n / 10)); [| lia].
    apply IH.
    + apply Z.div_pos; lia.
    + apply Z.div_lt_upper_bound; lia.
    + lia.
    + apply Z.div_le_lower_bound; lia.
Qed.

Lemma ndigits_upper (n k : Z) : 1 ≤ k → Z.abs n < 10 ^ k → ndigits n ≤ k.
Proof. intros. by apply ndigits_fuel_upper. Qed.

Lemma ndigits_lower (n k : Z) : 1 ≤ k → 10 ^ (k - 1) ≤ Z.abs n → k ≤ ndigits n.
Proof.
  intros Hk Hn. unfold ndigits.
  assert (0 < 10 ^ (k - 1)) by (apply Z.pow_pos_nonneg; lia).
  apply ndigits_fuel_lower; [lia | | done | done].
  rewrite Nat2Z.inj_succ, Z2Nat.id by apply Z.log2_nonneg.
  apply Z.log2_spec. lia.
Qed.

Lemma ndigits_size (n : Z) : 2 ≤ ndigits n → 10 ^ (ndigits n - 1) ≤ Z.abs n.
Proof.
  intros Hn. apply Z.nlt_ge. intros Hlt.
  pose proof (ndigits_upper n (ndigits n - 1) ltac:(lia) Hlt). lia.
Qed.

Lemma round_half_even_size (n k m : Z) :
  0 ≤ k → 0 ≤ m → 10 ^ (m + k) ≤ Z.abs n →
  10 ^ m ≤ Z.abs (round_half_even n k).
Proof.
  intros Hk Hm Hn. unfold round_half_even.
  assert (Hp : 0 < 10 ^ k) by (apply Z.pow_pos_nonneg; lia).
  assert (Hpm : 0 < 10 ^ m) by (apply Z.pow_pos_nonneg; lia).
  assert (Hq : 10 ^ m ≤ Z.abs n / 10 ^ k).
  { apply Z.div_le_lower_bound; [done |].
    rewrite <- Z.pow_add_r by lia. by rewrite (Z.add_comm k m). }
  set (q := Z.abs n / 10 ^ k) in *.
  destruct (_ <? _); [| destruct (_ <? _); [| destruct (Z.even q)]];
    destruct n; simpl in *; lia.
Qed.

(** A coefficient of more than [prec] digits, once rounded to [prec]
    digits, is too long for a column of twelve digits. *)
Lemma quantize_after_rounding (d : Decimal) :
  exp d = -2 → prec < ndigits (coef d) →
  quantize 12 2 (fix_ d) = inl InvalidOperation.
Proof.
  intros He Hn. unfold fix_, fix_prec, prec in *.
  destruct (Z.leb_spec (ndigits (coef d)) 28) as [| _]; [lia |].
  set (n := ndigits (coef d)) in *. set (k := n - 28).
  pose proof (ndigits_size (coef d) ltac:(fold n; lia)) as Hsize. fold n in Hsize.
  assert (Hc : 10 ^ 27 ≤ Z.abs (round_half_even (coef d) k)).
  { apply round_half_even_size; [lia .. |].
    replace (27 + k) with (n - 1) by lia. done. }
  set (c := round_half_even (coef d) k) in *.
  destruct (Z.ltb_spec 28 (ndigits c)) as [Hlong | Hfit]; unfold quantize; simpl.
  - assert (Hc' : 10 ^ 28 ≤ Z.abs c).
    { pose proof (ndigits_size c ltac:(lia)) as Hs.
      assert (10 ^ 28 ≤ 10 ^ (ndigits c - 1)); [| lia].
      apply Z.pow_le_mono_r; lia. }
    assert (Hq : 10 ^ 27 ≤ Z.abs (Z.quot c 10)).
    { rewrite <- Z.quot_abs by lia. simpl Z.abs at 2.
      rewrite Z.quot_div_nonneg by lia.
      apply Z.div_le_lower_bound; [lia |]. simpl in *. lia. }
    pose proof (ndigits_lower (Z.quot c 10) 28 ltac:(lia) Hq) as Hd.
    destruct (Z.eqb_spec (Z.quot c 10) 0) as [Hz | _].
    { rewrite Hz in Hq. simpl in Hq. lia. }
    destruct (Z.ltb_spec 12 (exp d + k + 1 + ndigits (Z.quot c 10) + 2));
      [done | lia].
  - pose proof (ndigits_lower c 28 ltac:(lia) Hc) as Hd.
    destruct (Z.eqb_spec c 0) as [Hz | _].
    { rewrite Hz in Hc. simpl in Hc. lia. }
    destruct (Z.ltb_spec 12 (exp d + k + ndigits c + 2)); [done | lia].
Qed.

Lemma quantize_two_places (max_digits : Z) (d q : Decimal) :
  exp d = -2 → quantize max_digits 2 d = inr q → q = d.
Proof.
  destruct d as [c e]. simpl. intros ->. unfold quantize. simpl.
  destruct (Z.eqb_spec c 0) as [-> | _]; [by intros [= <-] |].
  destruct (_ <? _); [done |].
  unfold rescale. simpl. destruct (_ <? _); [done |].
  intros [= <-]. f_equal. lia.
Qed.

(** X15.  The stored total is exact.  On a profile and an order amount that
    both carry two decimal places, as values read from their columns do, a
    call of [update_purchase_stats] that returns has stored the sum of the
    two as [total_spent], with no rounding, and [total_orders] one higher. *)
Theorem update_purchase_stats_total_exact (amount : Decimal)
    (p p' : BuyerProfile.t) (db db' : DB) :
  exp (BuyerProfile.total_spent p) = -2 →
  exp amount = -2 →
  BuyerProfile_update_purchase_stats amount (p, db) = ((p', db'), inr tt) →
  ∃ k row,
    BuyerProfile.pk p' = Some k
    ∧ buyer_profiles db' !! k = Some row
    ∧ BuyerProfile.total_orders row = (BuyerProfile.total_orders p + 1)%N
    ∧ BuyerProfile.total_spent row
      = mkDecimal (coef (BuyerProfile.total_spent p) + coef amount) (-2).
Proof.
  intros Hp Ha Hrun.
  destruct (update_purchase_stats_run amount p db) as (q & Hq & Heq).
  rewrite Heq in Hrun.
  apply BuyerProfile_save_row in Hrun as (k & row & Hk & Hrow & Ho & Hs & _).
  simpl in Ho, Hs. exists k, row. split; [done |]. split; [done |].
  split; [done |].
  set (s := coef (BuyerProfile.total_spent p) + coef amount).
  assert (Hadd : add (BuyerProfile.total_spent p) amount
                 = fix_ (mkDecimal s (-2))).
  { unfold add. rewrite Hp, Ha. change (Z.min (-2) (-2)) with (-2).
    change (-2 - -2) with 0. by rewrite Z.pow_0_r, !Z.mul_1_r. }
  rewrite Hadd in Hs. unfold prep_decimal in Hs.
  destruct (quantize 12 2 (fix_ (mkDecimal s (-2)))) as [sig | t] eqn:Hquant;
    [done |].
  injection Hs as <-.
  destruct (Z.leb_spec (ndigits s) prec) as [Hfit | Hlong].
  - assert (Hfix : fix_ (mkDecimal s (-2)) = mkDecimal s (-2)).
    { unfold fix_, fix_prec. simpl.
      destruct (Z.leb_spec (ndigits s) prec); [done | lia]. }
    rewrite Hfix in Hquant. by apply quantize_two_places in Hquant.
  - rewrite quantize_after_rounding in Hquant; done.
Qed.

Lemma update_purchase_stats_total_exact_witness :
  exp (BuyerProfile.total_spent two_orders) = -2
  ∧ exp (mkDecimal 2599 (-2)) = -2
  ∧ ∃ p' db' k row,
      BuyerProfile_update_purchase_stats (mkDecimal 2599 (-2))
        (two_orders, two_orders_db) = ((p', db'), inr tt)
      ∧ buyer_profiles db' !! k = Some row
      ∧ BuyerProfile.total_orders row = 3%N
      ∧ BuyerProfile.total_spent row = mkDecimal 12599 (-2).
Proof.
  split; [reflexivity |]. split; [reflexivity |].
  destruct (BuyerProfile_update_purchase_stats (mkDecimal 2599 (-2))
              (two_orders, two_orders_db)) as [[p' db'] r] eqn:Hrun.
  assert (Hr : r = inr tt).
  { apply (f_equal snd) in Hrun. vm_compute in Hrun. by rewrite <- Hrun. }
  subst r.
  destruct (update_purchase_stats_total_exact (mkDecimal 2599 (-2)) two_orders
              p' two_orders_db db' eq_refl eq_refl Hrun)
    as (k & row & _ & Hrow & Ho & Hs).
  exists p', db', k, row. split; [reflexivity |]. split; [exact Hrow |].
  split; [exact Ho | exact Hs].
Defined.

(** ** The phone number validator and the column it guards *)

Lemma phone_regex_search (s : list N) :
  phone_regex s = inr tt → re.search phone_pattern s = true.
Proof.
  unfold phone_regex, RegexValidator. by destruct (re.search phone_pattern s).
Qed.

(** X17.  A phone number that passes the validator has 10, 11, 13 or 14
    characters, so it always fits the [max_length] of 17 declared for the
    [phone_number] column: the validator, not the column, decides what is
    stored. *)
Theorem phone_regex_length (s : list N) :
  phone_regex s = inr tt →
  length s ∈ [10; 11; 13; 14]%nat ∧ (length s ≤ 17)%nat.
Proof.
  intros (prefix & d & ds & nl & -> & Hpre & _ & Hds & _ & Hnl)
    %phone_regex_search%phone_pattern_search_iff.
  rewrite length_app. simpl. rewrite length_app, Hds.
  destruct Hpre as [-> | ->], Hnl as [-> | ->]; simpl;
    (split; [| lia]); set_solver.
Qed.

Lemma phone_regex_length_witness :
  phone_regex (str "+919876543210") = inr tt
  ∧ length (str "+919876543210") ∈ [10; 11; 13; 14]%nat
  ∧ (length (str "+919876543210") ≤ 17)%nat.
Proof.
  split; [vm_compute; reflexivity |].
  apply (phone_regex_length (str "+919876543210")).
  vm_compute; reflexivity.
Defined.

(** ** Provisioned rows against the declared limits *)

Lemma length_append (a b : string) :
  String.length (a +:+ b) = (String.length a + String.length b)%nat.
Proof. induction a as [| c a IH]; simpl; [done |]. by rewrite IH. Qed.

Lemma append_nonempty (a b : string) : b ≠ "" → a +:+ b ≠ "".
Proof.
  intros Hb Hab. apply (f_equal String.length) in Hab.
  rewrite length_append in Hab. destruct b; [done |]. simpl in Hab. lia.
Qed.

Lemma str_or_not_empty (x y : string) : y ≠ "" → str_or x y ≠ "".
Proof. intros Hy. unfold str_or. by destruct (decide (x = "")). Qed.

(** X18.  The row that provisioning stores for a farmer respects every limit
    that the field declarations of [FarmerProfile] state, although
    [objects.create] checks none of them: the farm name is not blank and is
    seven characters longer than the username, so it fits its 200 characters
    for every username that fits the 150 of Django's account model; the farm
    address is never blank, which is what the placeholder is for; the other
    columns hold values of their [choices] and within their validators. *)
Theorem provisioned_farmer_within_limits (instance : User.t) (uid : nat)
    (db : DB) (k : nat) (profile : FarmerProfile.t) :
  User.pk instance = Some uid →
  User.user_type instance = "farmer" →
  (String.length (User.username instance) ≤ 150)%nat →
  farmer_profiles db !! k = None →
  farmer_profiles (exec (create_user_profile instance true) db) !! k
    = Some profile →
  String.length (FarmerProfile.farm_name profile)
    = (String.length (User.username instance) + 7)%nat
  ∧ FarmerProfile_within_limits profile.
Proof.
  intros Hpk Ht Hname Hold Hnew.
  rewrite (created_farmer_row instance uid db k profile) by done.
  unfold FarmerProfile_within_limits. simpl.
  rewrite length_append. simpl.
  split; [done |].
  split; [by apply append_nonempty |]. split; [lia |].
  split; [set_solver |]. split; [lia |]. split; [lia |].
  split; [reflexivity |]. split; [set_solver |]. split; [lia |].
  split; [lia |]. split; [by apply str_or_not_empty |].
  repeat (split; [lia |]). split; [reflexivity |]. split; [done | lia].
Qed.

Lemma provisioned_farmer_within_limits_witness :
  User.pk ravi = Some 1%nat
  ∧ User.user_type ravi = "farmer"
  ∧ (String.length (User.username ravi) ≤ 150)%nat
  ∧ ∃ profile,
      farmer_profiles (exec (create_user_profile ravi true) empty_db) !! 0%nat
        = Some profile
      ∧ FarmerProfile_within_limits profile.
Proof.
  split; [reflexivity |]. split; [reflexivity |].
  split; [vm_compute; lia |].
  destruct (farmer_profiles (exec (create_user_profile ravi true) empty_db)
              !! 0%nat) as [profile |] eqn:Hrow; [| vm_compute in Hrow; discriminate].
  exists profile. split; [reflexivity |].
  apply (provisioned_farmer_within_limits ravi 1 empty_db 0 profile).
  - reflexivity.
  - reflexivity.
  - vm_compute; lia.
  - vm_compute; reflexivity.
  - exact Hrow.
Defined.

(** ** Formatted addresses of the address book *)

Lemma concat_length (sep : string) (l : list string) :
  String.length (String.concat sep l)
  = (sum_list (String.length <$> l)
     + String.length sep * pred (length l))%nat.
Proof.
  induction l as [| x [| y l] IH].
  - simpl. lia.
  - simpl. lia.
  - change (String.concat sep (x :: y :: l))
      with (x +:+ sep +:+ String.concat sep (y :: l)).
    rewrite !length_append, IH. simpl. lia.
Qed.

Lemma sum_length_nonempty (l : list string) :
  sum_list (String.length <$> filter (λ part, part ≠ "") l)
  = sum_list (String.length <$> l).
Proof.
  induction l as [| x l IH]; [done |].
  destruct (decide (x = "")) as [-> | Hx].
  - rewrite filter_cons_False by (intros H; by apply H). exact IH.
  - rewrite filter_cons_True by done. simpl. f_equal. exact IH.
Qed.

(** X19.  [Address.full_address] loses no text and adds no dangling
    separator: it is empty exactly when all six components are, and
    otherwise its length is the total length of the components plus two
    characters for each non-empty component after the first. *)
Theorem Address_full_address_length (a : Address.t) :
  (Address.full_address a = ""
   ↔ Address.address_line_1 a = "" ∧ Address.address_line_2 a = ""
     ∧ Address.city a = "" ∧ Address.state a = ""
     ∧ Address.postal_code a = "" ∧ Address.country a = "")
  ∧ String.length (Address.full_address a)
    = (sum_list (String.length <$> address_parts a)
       + 2 * pred (length (filter (λ part, part ≠ "") (address_parts a))))%nat.
Proof.
  unfold Address.full_address. fold (address_parts a). split.
  - rewrite join_nonempty_parts. unfold address_parts.
    rewrite !Forall_cons, Forall_nil. tauto.
  - by rewrite concat_length, sum_length_nonempty.
Qed.

(** ** What the re-saving receiver can do to the database *)

Lemma related_cases {R} `{Model R} (user_of : R → nat) (instance : User.t)
    (db : DB) :
  related user_of instance db = (db, inl RelatedObjectDoesNotExist)
  ∨ ∃ uid k r,
      User.pk instance = Some uid
      ∧ objects db !! k = Some r
      ∧ user_of r = uid
      ∧ related user_of instance db = (db, inr r).
Proof.
  unfold related, objects_first.
  destruct (User.pk instance) as [uid |]; [| by left].
  destruct (head (map_to_list _)) as [[k r] |] eqn:Hhead; [| by left].
  right. exists uid, k, r. split; [done |].
  apply head_Some_elem_of, elem_of_map_to_list in Hhead.
  apply map_lookup_filter_Some in Hhead as [Hr Hu]. simpl in Hu.
  apply bool_decide_eq_true in Hu. done.
Qed.

(** With Django's accessors, [save_user_profile] leaves the database as it
    is, or as the [save] of the stored profile of the account leaves it. *)
Lemma save_user_profile_cases (instance : User.t) (db : DB) :
  exec (save_user_profile instance) db = db
  ∨ (∃ k r,
       farmer_profiles db !! k = Some r
       ∧ User.pk instance = Some (FarmerProfile.user r)
       ∧ exec (save_user_profile instance) db
         = (exec (Model_save false) (r, db)).2)
  ∨ (∃ k r,
       buyer_profiles db !! k = Some r
       ∧ User.pk instance = Some (BuyerProfile.user r)
       ∧ exec (save_user_profile instance) db
         = (exec (Model_save false) (r, db)).2).
Proof.
  unfold exec, save_user_profile. run.
  destruct (decide (User.user_type instance = "farmer")) as [Hf | Hnf].
  - destruct (related_cases FarmerProfile.user instance db)
      as [Hrel | (uid & k & r & Hpk & Hr & Hu & Hrel)]; rewrite Hrel; simpl.
    + destruct (decide (User.user_type instance ∈ ["buyer"; "vendor"]))
        as [Hb | _]; [| by left].
      rewrite Hf in Hb. by role_absurd Hb.
    + right; left. exists k, r. rewrite Hrel, Hu.
      split; [done |]. split; [done |].
      unfold mbind, M_bind, call, mret, M_ret.
      by destruct (Model_save false (r, db)) as [[r' db'] [e | []]].
  - destruct (decide (User.user_type instance ∈ ["buyer"; "vendor"]))
      as [Hb | _]; [| by left].
    destruct (related_cases BuyerProfile.user instance db)
      as [Hrel | (uid & k & r & Hpk & Hr & Hu & Hrel)]; rewrite Hrel; simpl;
      [by left |].
    right; right. exists k, r. rewrite Hrel, Hu.
    split; [done |]. split; [done |].
    unfold mbind, M_bind, call, mret, M_ret.
    by destruct (Model_save false (r, db)) as [[r' db'] [e | []]].
Qed.

(** Saving a row that is stored under its own key rewrites that row and
    nothing else of its table. *)
Lemma Model_save_stored {R} `{Model R} (k : nat) (r : R) (db : DB) :
  keyed (objects db) →
  objects db !! k = Some r →
  (exec (Model_save false) (r, db)).2 = db
  ∨ ∃ stored,
      (exec (Model_save false) (r, db)).2
      = set_objects (<[k := stored]> (objects db)) db.
Proof.
  intros Hkeyed Hr. pose proof (Hkeyed k r Hr) as Hpk. unfold exec.
  destruct (Model_save_cases false r db)
    as [(e & -> & _) | (row & stored & self' & _ & _ & _ & ->)]; [by left |].
  right. exists stored. unfold save_key. by rewrite Hpk.
Qed.

(** X20.  With Django's accessors, [save_user_profile] creates no row and
    removes none.  In a database whose profile rows are stored under their
    own keys, it leaves the account table and the address table as they are,
    and in the profile tables every row that belongs to another account. *)
Theorem save_user_profile_frame (instance : User.t) (db : DB) :
  keyed (farmer_profiles db) →
  keyed (buyer_profiles db) →
  users (exec (save_user_profile instance) db) = users db
  ∧ addresses (exec (save_user_profile instance) db) = addresses db
  ∧ dom (farmer_profiles (exec (save_user_profile instance) db))
    = dom (farmer_profiles db)
  ∧ dom (buyer_profiles (exec (save_user_profile instance) db))
    = dom (buyer_profiles db)
  ∧ (∀ k r, farmer_profiles db !! k = Some r →
       User.pk instance ≠ Some (FarmerProfile.user r) →
       farmer_profiles (exec (save_user_profile instance) db) !! k = Some r)
  ∧ (∀ k r, buyer_profiles db !! k = Some r →
       User.pk instance ≠ Some (BuyerProfile.user r) →
       buyer_profiles (exec (save_user_profile instance) db) !! k = Some r).
Proof.
  intros Hkf Hkb.
  destruct (save_user_profile_cases instance db)
    as [-> | [(k & r & Hr & Hpk & ->) | (k & r & Hr & Hpk & ->)]]; [done | |].
  - destruct (Model_save_stored (R := FarmerProfile.t) k r db Hkf Hr) as [-> | [stored ->]]; [done |].
    simpl. split; [done |]. split; [done |]. split; [| split; [done |]].
    + apply dom_insert_lookup_L. by exists r.
    + split; [| done]. intros k' r' Hr' Hne.
      rewrite lookup_insert_ne; [done |]. intros <-. congruence.
  - destruct (Model_save_stored (R := BuyerProfile.t) k r db Hkb Hr) as [-> | [stored ->]]; [done |].
    simpl. split; [done |]. split; [done |]. split; [done |]. split.
    + apply dom_insert_lookup_L. by exists r.
    + split; [done |]. intros k' r' Hr' Hne.
      rewrite lookup_insert_ne; [done |]. intros <-. congruence.
Qed.

Lemma ravi_farm_db_keyed :
  keyed (farmer_profiles ravi_farm_db) ∧ keyed (buyer_profiles ravi_farm_db).
Proof.
  split; intros k r Hr; simpl in Hr.
  - apply lookup_insert_Some in Hr as [[<- <-] | [_ Hr]]; [reflexivity |].
    by rewrite lookup_empty in Hr.
  - by rewrite lookup_empty in Hr.
Defined.

Lemma save_user_profile_frame_witness :
  keyed (farmer_profiles ravi_farm_db)
  ∧ keyed (buyer_profiles ravi_farm_db)
  ∧ users (exec (save_user_profile ravi) ravi_farm_db) = users ravi_farm_db
  ∧ dom (farmer_profiles (exec (save_user_profile ravi) ravi_farm_db))
    = dom (farmer_profiles ravi_farm_db).
Proof.
  split; [exact (proj1 ravi_farm_db_keyed) |].
  split; [exact (proj2 ravi_farm_db_keyed) |].
  destruct (save_user_profile_frame ravi ravi_farm_db
              (proj1 ravi_farm_db_keyed) (proj2 ravi_farm_db_keyed))
    as (Hu & _ & Hd & _).
  split; [exact Hu | exact Hd].
Defined.

(** ** Saving a new account a second time *)

(** The account object that [super().save()] leaves for an account that was
    not stored: the same object, with the key it was stored under. *)
Lemma User_save_insert_instance (u : User.t) (db : DB) :
  save_accepted u db = true →
  save_key u db ∉ dom (users db) →
  ∃ instance,
    (instance = u ∨ instance = User.set_pk (save_key u db) u)
    ∧ User.pk instance = Some (save_key u db)
    ∧ User_save (u, db) =
        (query (create_user_profile instance true);;
         query (save_user_profile instance))
          (instance,
           set_users (<[save_key u db := instance]> (users db)) db).
Proof.
  intros Hacc Hnew. unfold save_accepted, save_key in *. simpl in *.
  apply negb_true_iff in Hacc.
  unfold User_save, Model_save. run. simpl.
  destruct (User.pk u) as [k |] eqn:Hk; rewrite Hacc.
  - exists u. rewrite bool_decide_eq_true_2 by done. auto.
  - eexists (User.set_pk _ u). auto.
Qed.

Lemma User_save_accepted_again (u u' : User.t) (db : DB) :
  save_accepted u db = true →
  u' = u ∨ u' = User.set_pk (save_key u db) u →
  User.pk u' = Some (save_key u db) →
  ∀ db', users db' = <[save_key u db := u']> (users db) →
    save_accepted u' db' = true.
Proof.
  intros Hacc Hu' Hpk db' Hdb'.
  unfold save_accepted in *. simpl in *.
  apply negb_true_iff in Hacc. apply negb_true_iff.
  apply not_true_iff_false. intros Hv. apply not_true_iff_false in Hacc.
  apply Hacc. apply unique_violation_spec in Hv as (k' & r & Hr & Hne & Hc).
  assert (Hkey : save_key u' db' = save_key u db).
  { unfold save_key at 1. simpl. by rewrite Hpk. }
  rewrite Hkey in Hne. simpl in Hr. rewrite Hdb' in Hr.
  rewrite lookup_insert_ne in Hr by done.
  apply unique_violation_spec. exists k', r. split; [done |].
  split; [done |]. by destruct Hu' as [-> | ->].
Qed.

(** X21.  Saving a newly created farmer account, one without a profile
    picture, a second time changes none of the columns held by the records:
    the first [User.save] stores the account and provisions its profile, and
    a second [save] of the object it leaves returns normally, with no row
    added and with the account row and the profile row as the first one left
    them.  The timestamps [updated_at] of these two rows, which every save
    sets anew, are not among these columns. *)
Theorem User_save_new_farmer_twice (u : User.t) (db : DB) :
  referential_integrity db →
  save_accepted u db = true →
  save_key u db ∉ dom (users db) →
  User.user_type u = "farmer" →
  ∃ u' db',
    User_save (u, db) = ((u', db'), inr tt)
    ∧ User_save (u', db') = ((u', db'), inr tt).
Proof.
  intros [Hfk _] Hacc Hnew Ht.
  destruct (User_save_insert_instance u db Hacc Hnew)
    as (instance & Hinst & Hpk & ->).
  set (uid := save_key u db) in *.
  set (db1 := set_users (<[uid := instance]> (users db)) db).
  assert (Hti : User.user_type instance = "farmer").
  { by destruct Hinst as [-> | ->]. }
  assert (Hnone : rows_of FarmerProfile.user uid (farmer_profiles db1) = ∅).
  { apply rows_of_empty. intros k r Hr Hu. apply Hnew. rewrite <- Hu.
    by apply (Hfk k r). }
  pose proof (create_user_profile_farmer_run instance uid db1 Hpk Hti Hnone)
    as Hcreate.
  cbv zeta in Hcreate.
  set (k := fresh (dom (farmer_profiles db1))) in *.
  set (row := FarmerProfile.set_pk k _) in *.
  set (db2 := set_farmer_profiles _ db1) in *.
  assert (Hrows : rows_of FarmerProfile.user uid (farmer_profiles db2)
                  = {[k := row]}).
  { simpl. by apply rows_of_insert_new. }
  pose proof (save_user_profile_resaves_farmer instance uid k row db2
                Hpk Hti Hrows eq_refl eq_refl) as Hresave.
  exists instance, db2. split.
  { unfold mbind, M_bind, query. cbn [fst snd]. rewrite Hcreate.
    cbn [fst snd]. by rewrite Hresave. }
  assert (Hacc2 : save_accepted instance db2 = true).
  { by apply (User_save_accepted_again u instance db Hacc Hinst Hpk db2). }
  assert (Hin : uid ∈ dom (users db2)).
  { simpl. apply elem_of_dom. rewrite lookup_insert_eq. eauto. }
  rewrite (User_save_update instance uid db2 Hpk Hin Hacc2).
  assert (Hsame : set_users (<[uid := instance]> (users db2)) db2 = db2).
  { unfold db2, db1, set_users, set_farmer_profiles. simpl.
    by rewrite insert_insert_eq. }
  rewrite Hsame.
  unfold mbind, M_bind, query, create_user_profile, mret, M_ret. cbn [fst snd].
  by rewrite Hresave.
Qed.

Lemma User_save_new_farmer_twice_witness :
  referential_integrity ravi_db
  ∧ save_accepted lakshmi ravi_db = true
  ∧ (save_key lakshmi ravi_db ∉ dom (users ravi_db))
  ∧ User.user_type lakshmi = "farmer"
  ∧ ∃ u' db',
      User_save (lakshmi, ravi_db) = ((u', db'), inr tt)
      ∧ User_save (u', db') = ((u', db'), inr tt).
Proof.
  assert (Hfk : referential_integrity ravi_db).
  { by apply no_profiles_referential_integrity. }
  assert (Hnew : save_key lakshmi ravi_db ∉ dom (users ravi_db)).
  { apply is_fresh. }
  split; [exact Hfk |]. split; [vm_compute; reflexivity |].
  split; [exact Hnew |]. split; [reflexivity |].
  apply (User_save_new_farmer_twice lakshmi ravi_db).
  - exact Hfk.
  - vm_compute; reflexivity.
  - exact Hnew.
  - reflexivity.
Defined.
